(** * alarmsScheduler: the HTTP handler that manages scheduled-trigger rules

  A shallow embedding of
  [amplify/backend/function/alarmsScheduler/src/index.py].

  The handler is Python glue over two managed services (the rule
  scheduler and the function registry).  The embedding keeps the Python
  control flow as it is written:

  - Python values are the type [pyval]; strings are sequences of code
    points below 256;
  - a raised exception is an outcome of its own ([Raise]), caught where
    the source has [except], and let through where it has none;
  - every call to an external service goes through one oracle,
    [service], that answers from a rule store and leaves a new one; the
    call is appended to a log, so that "which calls were issued, in which
    order, with which arguments" is a statement about the log;
  - [json.loads] is an oracle too ([json_loads]); [json.dumps],
    [datetime.strptime], [str], [str.upper], [str.replace] and
    [re.fullmatch] are written out for the formats the handler uses.

  [print] calls are left out: they write to the function's log stream and
  nothing reads them back.  The two [boto3.client] constructions are left
  out as well (they build a client object and send nothing), and
  [os.environ['ENV']] is the parameter [env] of the handler.  Library
  wording of exception messages is that of CPython 3.8. *)

From Stdlib Require Import String Ascii List ZArith Bool Lia DecimalString.

Set Warnings "-register-all".
Import ListNotations.
Local Open Scope string_scope.
Local Open Scope Z_scope.

(** ** Strings *)

Module PyString.

Definition code (c : ascii) : N := N_of_ascii c.

Definition in_range (lo hi : N) (c : ascii) : bool :=
  (N.leb lo (code c)) && (N.leb (code c) hi).

Definition is_digit (c : ascii) : bool := in_range 48 57 c.
Definition is_lower (c : ascii) : bool := in_range 97 122 c.
Definition is_upper (c : ascii) : bool := in_range 65 90 c.

(** [str.upper] on the letters a-z.  For code points below 256 no other
    character is turned into an ASCII letter, so the comparisons the
    handler makes with 'ENABLED' and 'DISABLED' come out as in Python. *)
Definition upper_char (c : ascii) : ascii :=
  if is_lower c then ascii_of_N (code c - 32) else c.

Fixpoint upper (s : string) : string :=
  match s with
  | EmptyString => EmptyString
  | String c r => String (upper_char c) (upper r)
  end.

Fixpoint mem_char (c : ascii) (s : string) : bool :=
  match s with
  | EmptyString => false
  | String d r => Ascii.eqb c d || mem_char c r
  end.

Fixpoint all_chars (p : ascii -> bool) (s : string) : bool :=
  match s with
  | EmptyString => true
  | String c r => p c && all_chars p r
  end.

Fixpoint map_concat (f : ascii -> string) (s : string) : string :=
  match s with
  | EmptyString => EmptyString
  | String c r => f c ++ map_concat f r
  end.

Fixpoint join (sep : string) (l : list string) : string :=
  match l with
  | [] => ""
  | [x] => x
  | x :: r => x ++ sep ++ join sep r
  end.

Definition backslash : ascii := ascii_of_N 92.
Definition dquote : ascii := ascii_of_N 34.
Definition squote : ascii := ascii_of_N 39.

Definition str1 (c : ascii) : string := String c EmptyString.

Definition quoted (s : string) : string := str1 dquote ++ s ++ str1 dquote.

(** [s.replace('\\\\', '\\')]: every pair of backslashes, scanned from
    the left without overlap, becomes a single one. *)
Fixpoint replace_double_backslash (s : string) : string :=
  match s with
  | String c (String d r as t) =>
      if Ascii.eqb c backslash && Ascii.eqb d backslash
      then String backslash (replace_double_backslash r)
      else String c (replace_double_backslash t)
  | _ => s
  end.

Definition hex_digit (n : N) : ascii :=
  if N.ltb n 10 then ascii_of_N (48 + n) else ascii_of_N (87 + n).

Definition hex2 (c : ascii) : string :=
  String (hex_digit (code c / 16)) (str1 (hex_digit (code c mod 16))).

(** Decimal form of an integer, as [str] and ['%s'] give it. *)
Definition of_Z (z : Z) : string := NilZero.string_of_int (Z.to_int z).

(** Removal of blanks, to compare JSON texts that hold no blank inside a
    string. *)
Fixpoint strip_blanks (s : string) : string :=
  match s with
  | EmptyString => EmptyString
  | String c r =>
      if Ascii.eqb c " "%char then strip_blanks r
      else String c (strip_blanks r)
  end.

End PyString.

(** ** Python values, exceptions and outcomes *)

Module Py.
Import PyString.

(** The values that travel through the handler: what [json.loads] yields
    and what the service clients answer.  A float is kept by its [repr],
    which is all the handler can observe of it; a dict is an association
    list, in insertion order. *)
Inductive pyval : Type :=
| PNone
| PBool (b : bool)
| PInt (z : Z)
| PFloat (repr : string)
| PStr (s : string)
| PList (l : list pyval)
| PDict (d : list (string * pyval)).

Inductive exn_class : Type :=
| KeyError
| TypeError
| AttributeError
| UnboundLocalError
| JSONDecodeError
| ClientError.

(** An exception: its class and [str(e)]. *)
Record pyexn : Type := PyExn { exn_cls : exn_class; exn_str : string }.

Inductive pyres (A : Type) : Type :=
| Ret (a : A)
| Raise (e : pyexn).
Arguments Ret {A} a.
Arguments Raise {A} e.

(** Truth value of a Python value ([if v], [not v]). *)
Definition truthy (v : pyval) : bool :=
  match v with
  | PNone => false
  | PBool b => b
  | PInt z => negb (z =? 0)
  | PFloat r => negb (String.eqb r "0.0" || String.eqb r "-0.0")
  | PStr s => negb (String.eqb s "")
  | PList l => match l with [] => false | _ => true end
  | PDict d => match d with [] => false | _ => true end
  end.

(** [v == 'lit'] for a string literal. *)
Definition eq_str (v : pyval) (lit : string) : bool :=
  match v with
  | PStr s => String.eqb s lit
  | _ => false
  end.

Definition type_name (v : pyval) : string :=
  match v with
  | PNone => "NoneType"
  | PBool _ => "bool"
  | PInt _ => "int"
  | PFloat _ => "float"
  | PStr _ => "str"
  | PList _ => "list"
  | PDict _ => "dict"
  end.

(** [repr] of a string: single quotes unless the string holds a single
    quote and no double quote. *)
Definition printable (c : ascii) : bool :=
  (in_range 32 126 c) || (in_range 161 255 c && negb (N.eqb (code c) 173)).

Definition repr_char (q : ascii) (c : ascii) : string :=
  if Ascii.eqb c q || Ascii.eqb c backslash then String backslash (str1 c)
  else if N.eqb (code c) 9 then "\t"
  else if N.eqb (code c) 10 then "\n"
  else if N.eqb (code c) 13 then "\r"
  else if printable c then str1 c
  else "\x" ++ hex2 c.

Definition repr_str (s : string) : string :=
  let q := if mem_char squote s && negb (mem_char dquote s)
           then dquote else squote in
  String q (map_concat (repr_char q) s) ++ str1 q.

Fixpoint repr (v : pyval) : string :=
  match v with
  | PNone => "None"
  | PBool true => "True"
  | PBool false => "False"
  | PInt z => of_Z z
  | PFloat r => r
  | PStr s => repr_str s
  | PList l => "[" ++ join ", " (map repr l) ++ "]"
  | PDict d =>
      "{" ++ join ", " (map (fun kv => repr_str (fst kv) ++ ": " ++ repr (snd kv)) d)
          ++ "}"
  end.

(** [str(v)]. *)
Definition str (v : pyval) : string :=
  match v with
  | PStr s => s
  | _ => repr v
  end.

(** [d[key]] for a string key: a dict answers or raises [KeyError]; no
    other value can be indexed by a string. *)
Fixpoint assoc (key : string) (d : list (string * pyval)) : option pyval :=
  match d with
  | [] => None
  | (k, v) :: r => if String.eqb k key then Some v else assoc key r
  end.

Definition key_error (key : string) : pyexn :=
  PyExn KeyError ("'" ++ key ++ "'").

Definition getitem (v : pyval) (key : string) : pyres pyval :=
  match v with
  | PDict d =>
      match assoc key d with
      | Some x => Ret x
      | None => Raise (key_error key)
      end
  | PList _ =>
      Raise (PyExn TypeError "list indices must be integers or slices, not str")
  | PStr _ => Raise (PyExn TypeError "string indices must be integers")
  | _ => Raise (PyExn TypeError
                  ("'" ++ type_name v ++ "' object is not subscriptable"))
  end.

(** ['lit' + v]: only a string can be appended to a string. *)
Definition concat_str (lit : string) (v : pyval) : pyres string :=
  match v with
  | PStr s => Ret (lit ++ s)
  | _ => Raise (PyExn TypeError
                  ("can only concatenate str (not " ++ quoted (type_name v)
                     ++ ") to str"))
  end.

End Py.

(** ** [json.dumps] and the response object *)

Module Json.
Import PyString Py.

(** One character of a JSON string under [ensure_ascii]: the printable
    ASCII characters other than the quote and the backslash are kept. *)
Definition escape_char (c : ascii) : string :=
  if Ascii.eqb c dquote then String backslash (str1 dquote)
  else if Ascii.eqb c backslash then String backslash (str1 backslash)
  else if N.eqb (code c) 10 then String backslash "n"
  else if N.eqb (code c) 13 then String backslash "r"
  else if N.eqb (code c) 9 then String backslash "t"
  else if N.eqb (code c) 8 then String backslash "b"
  else if N.eqb (code c) 12 then String backslash "f"
  else if in_range 32 126 c then str1 c
  else String backslash ("u00" ++ hex2 c).

Definition dumps_str (s : string) : string :=
  String dquote (map_concat escape_char s) ++ str1 dquote.

Definition dumps_float (r : string) : string :=
  if String.eqb r "nan" then "NaN"
  else if String.eqb r "inf" then "Infinity"
  else if String.eqb r "-inf" then "-Infinity"
  else r.

(** [json.dumps(v)] with the default separators. *)
Fixpoint dumps (v : pyval) : string :=
  match v with
  | PNone => "null"
  | PBool true => "true"
  | PBool false => "false"
  | PInt z => of_Z z
  | PFloat r => dumps_float r
  | PStr s => dumps_str s
  | PList l => "[" ++ join ", " (map dumps l) ++ "]"
  | PDict d =>
      "{" ++ join ", " (map (fun kv => dumps_str (fst kv) ++ ": " ++ dumps (snd kv)) d)
          ++ "}"
  end.

End Json.

(** The response the handler hands back to the gateway. *)
Record response : Type := Response {
  statusCode : Z;
  headers : list (string * string);
  body : string
}.

(** [json_response(responseMessage, code)] *)
Definition json_response (responseMessage : Py.pyval) (code : Z) : response :=
  {| statusCode := code;
     headers := [ ("Access-Control-Allow-Headers", "*");
                  ("Access-Control-Allow-Origin", "*");
                  ("Access-Control-Allow-Methods", "POST") ];
     body := PyString.replace_double_backslash (Json.dumps responseMessage) |}.

(** ** [re.fullmatch] on the name pattern and [datetime.strptime] *)

(** [validate_name(name)]: [re.fullmatch("[\\.\\-_A-Za-z0-9]+", name)],
    read for its truth value (a match object or [None]). *)
Definition name_char (c : ascii) : bool :=
  PyString.mem_char c ".-_" || PyString.is_upper c || PyString.is_lower c
  || PyString.is_digit c.

Definition validate_name (name : string) : bool :=
  negb (String.eqb name "") && PyString.all_chars name_char name.

Definition name_pattern : string :=
  String "[" (String PyString.backslash (String "."
    (String PyString.backslash "-_A-Za-z0-9]+"))).

Module Strptime.
Import PyString.

(** The fields of the [datetime] object the handler reads, and the others
    that decide whether the object can be built. *)
Record datetime : Type := Datetime {
  year : Z; month : Z; day : Z; hour : Z; minute : Z; second : Z
}.

(** A backtracking matcher: all the ways to match a prefix, the regular
    expression engine's first choice first. *)
Definition matcher (A : Type) : Type := string -> list (A * string).

Definition pure {A} (a : A) : matcher A := fun s => [(a, s)].

Definition seq {A B} (m : matcher A) (k : A -> matcher B) : matcher B :=
  fun s => flat_map (fun r => k (fst r) (snd r)) (m s).

Definition alt {A} (m1 m2 : matcher A) : matcher A :=
  fun s => (m1 s ++ m2 s)%list.

Definition sat (p : ascii -> bool) : matcher ascii :=
  fun s => match s with
           | String c r => if p c then [(c, r)] else []
           | EmptyString => []
           end.

Definition lit (c : ascii) : matcher ascii := sat (Ascii.eqb c).

Definition digit_val (c : ascii) : Z := Z.of_N (code c) - 48.

(** A digit within [lo]..[hi] (given as digits), as its value. *)
Definition dig (lo hi : Z) : matcher Z :=
  seq (sat (fun c => is_digit c && (lo <=? digit_val c) && (digit_val c <=? hi)))
      (fun c => pure (digit_val c)).

Definition two (hi_lo hi_hi lo_lo lo_hi : Z) : matcher Z :=
  seq (dig hi_lo hi_hi) (fun a => seq (dig lo_lo lo_hi) (fun b => pure (10 * a + b))).

(** [\s] on code points below 256. *)
Definition is_space (c : ascii) : bool :=
  in_range 9 13 c || in_range 28 32 c || N.eqb (code c) 133 || N.eqb (code c) 160.

(** [\s+], greedy: the longest run first, then shorter ones. *)
Fixpoint spaces (s : string) : list (unit * string) :=
  match s with
  | String c r => if is_space c then (spaces r ++ [(tt, r)])%list else []
  | EmptyString => []
  end.

(** %Y  [\d\d\d\d] *)
Definition dir_Y : matcher Z :=
  seq (dig 0 9) (fun a => seq (dig 0 9) (fun b => seq (dig 0 9) (fun c =>
  seq (dig 0 9) (fun d => pure (1000 * a + 100 * b + 10 * c + d))))).

(** %m  [1[0-2]|0[1-9]|[1-9]] *)
Definition dir_m : matcher Z :=
  alt (two 1 1 0 2) (alt (two 0 0 1 9) (dig 1 9)).

(** %d  [3[0-1]|[1-2]\d|0[1-9]|[1-9]| [1-9]] *)
Definition dir_d : matcher Z :=
  alt (two 3 3 0 1) (alt (two 1 2 0 9) (alt (two 0 0 1 9) (alt (dig 1 9)
      (seq (lit " "%char) (fun _ => dig 1 9))))).

(** %H  [2[0-3]|[0-1]\d|\d] *)
Definition dir_H : matcher Z :=
  alt (two 2 2 0 3) (alt (two 0 1 0 9) (dig 0 9)).

(** %M  [[0-5]\d|\d] *)
Definition dir_M : matcher Z :=
  alt (two 0 5 0 9) (dig 0 9).

(** %S  [6[0-1]|[0-5]\d|\d] *)
Definition dir_S : matcher Z :=
  alt (two 6 6 0 1) (alt (two 0 5 0 9) (dig 0 9)).

(** The compiled form of "%Y-%m-%d %H:%M:%S". *)
Definition format_regex : matcher datetime :=
  seq dir_Y (fun y => seq (lit "-"%char) (fun _ =>
  seq dir_m (fun m => seq (lit "-"%char) (fun _ =>
  seq dir_d (fun d => seq spaces (fun _ =>
  seq dir_H (fun h => seq (lit ":"%char) (fun _ =>
  seq dir_M (fun mi => seq (lit ":"%char) (fun _ =>
  seq dir_S (fun sec => pure (Datetime y m d h mi sec)))))))))))).

Definition is_leap (y : Z) : bool :=
  ((y mod 4 =? 0) && negb (y mod 100 =? 0)) || (y mod 400 =? 0).

Definition days_in_month (y m : Z) : Z :=
  if m =? 2 then (if is_leap y then 29 else 28)
  else if (m =? 4) || (m =? 6) || (m =? 9) || (m =? 11) then 30
  else 31.

(** What the [datetime] constructor accepts. *)
Definition valid (d : datetime) : bool :=
  (1 <=? year d) && (day d <=? days_in_month (year d) (month d))
  && (second d <=? 59).

(** [datetime.strptime(s, "%Y-%m-%d %H:%M:%S")]: [None] stands for the
    [ValueError] raised when the text does not match, when text is left
    over after the match, or when the fields are no date. *)
Definition strptime (s : string) : option datetime :=
  match format_regex s with
  | (d, EmptyString) :: _ => if valid d then Some d else None
  | _ => None
  end.

End Strptime.

(** [validate_date(strDate)]: the [datetime], or [None] where the source
    returns the empty string (both are read for their truth value only, and
    a [datetime] is always true).  A value that is not a string makes
    [strptime] raise [TypeError], which the function catches as well. *)
Definition validate_date (strDate : Py.pyval) : option Strptime.datetime :=
  match strDate with
  | Py.PStr s => Strptime.strptime s
  | _ => None
  end.

(** The cron expression of a [datetime]: the format string of the source
    filled with [datetime_object.minute], then [datetime_object.hour]. *)
Definition cron_of (d : Strptime.datetime) : string :=
  "cron(" ++ PyString.of_Z (Strptime.minute d) ++ " "
          ++ PyString.of_Z (Strptime.hour d) ++ " * * ? *)".


(** ** The platform: external services, rule store and call log *)

Module Platform.
Import Py.

(** One entry of the [Targets] argument of [put_targets]. *)
Record target : Type := Target {
  Arn : pyval;
  Id : string;
  Input : string
}.

(** The calls the handler makes on its two clients, with their keyword
    arguments: [get_function] goes to the function registry (the identity
    lookup), the others to the rule scheduler. *)
Inductive call : Type :=
| GetFunction (FunctionName : string)
| ListRules
| DescribeRule (Name : string)
| PutRule (Name : string) (ScheduleExpression State : pyval)
| PutTargets (Rule : string) (Targets : list target)
| RemoveTargets (Rule : string) (Ids : list string) (Force : bool)
| DeleteRule (Name : string) (Force : bool).

Definition is_scheduling_call (c : call) : bool :=
  match c with
  | GetFunction _ => false
  | _ => true
  end.

Definition is_describe_call (c : call) : bool :=
  match c with
  | DescribeRule _ => true
  | _ => false
  end.

Definition is_delete_call (c : call) : bool :=
  match c with
  | DeleteRule _ _ => true
  | _ => false
  end.

(** What surrounds one invocation: the services' store and the calls issued
    so far, oldest first. *)
Record world (store : Type) : Type := World {
  rules : store;
  log : list call
}.
Arguments World {store} rules log.
Arguments rules {store} w.
Arguments log {store} w.

(** A computation of the handler: it ends with a value or a raised
    exception, and in both cases leaves a world. *)
Definition M (store A : Type) : Type := world store -> pyres A * world store.

Definition ret {store A} (a : A) : M store A := fun w => (Ret a, w).

Definition raise {store A} (e : pyexn) : M store A := fun w => (Raise e, w).

Definition bind {store A B} (m : M store A) (k : A -> M store B) : M store B :=
  fun w =>
    match m w with
    | (Ret a, w') => k a w'
    | (Raise e, w') => (Raise e, w')
    end.

(** [try: m  except Exception as e: h e] *)
Definition try_except {store A} (m : M store A) (h : pyexn -> M store A)
  : M store A :=
  fun w =>
    match m w with
    | (Ret a, w') => (Ret a, w')
    | (Raise e, w') => h e w'
    end.

(** A pure step that may raise. *)
Definition lift {store A} (r : pyres A) : M store A := fun w => (r, w).

End Platform.

Declare Scope py_scope.
Delimit Scope py_scope with py.
Notation "x <- m ;; k" := (Platform.bind m (fun x => k))
  (at level 61, m at next level, right associativity) : py_scope.

(** ** The handler *)

Module Msg.
Definition wrong_method : string :=
  "Please use POST httpMethod for this endPoint".
Definition bad_action : string :=
  "The action on the body request should be: create, query, delete or update.".
Definition no_action : string :=
  "There was an error reading the action on the body request".
Definition id_empty : string :=
  "The id on the body request cannot be empty".
Definition no_date : string :=
  "You must provide a date for the event".
Definition bad_name : string :=
  "The rule's id must satisfy regular expression pattern: " ++ name_pattern.
Definition bad_date : string :=
  "There was an issue reading the date. Provide a date with a valid format e.g. yyyy-mm-dd HH:MM:ss".
Definition nothing_to_update : string :=
  "You must provide a date or a state to update the event".
Definition bad_state : string :=
  "The state must be either ENABLED or DISABLED".
Definition created : string := "New Rule created successfully: ".
Definition updated : string := "Rule updated successfully: ".
Definition deleted : string := "Rule deleted successfully".
End Msg.

(** [read_body_parameter(requestBody, parameterName)]: only [KeyError] is
    caught. *)
Definition read_body_parameter (requestBody : Py.pyval) (parameterName : string)
  : Py.pyres Py.pyval :=
  match Py.getitem requestBody parameterName with
  | Py.Ret parameterValue => Py.Ret parameterValue
  | Py.Raise e =>
      match Py.exn_cls e with
      | Py.KeyError => Py.Ret (Py.PStr "")
      | _ => Py.Raise e
      end
  end.

(** [state.upper()]: only a string has the method. *)
Definition method_upper (v : Py.pyval) : Py.pyres string :=
  match v with
  | Py.PStr s => Py.Ret (PyString.upper s)
  | _ => Py.Raise (Py.PyExn Py.AttributeError
                     ("'" ++ Py.type_name v ++ "' object has no attribute 'upper'"))
  end.

(** The [Input] of the target: ['{ "id" : ' + name + ' }']. *)
Definition target_input (name : string) : string :=
  "{ " ++ PyString.quoted "id" ++ " : " ++ name ++ " }".

(** Reading a local variable that no executed statement has assigned. *)
Definition unbound_local (var : string) : Py.pyexn :=
  Py.PyExn Py.UnboundLocalError
    ("local variable '" ++ var ++ "' referenced before assignment").

Section Handler.
Import Py Platform.
Local Open Scope py_scope.

Variable store : Type.

(** [json.loads] on a string. *)
Variable json_loads : string -> pyres pyval.

(** The two clients: the answer to a call, and the store it leaves. *)
Variable service : call -> store -> pyres pyval * store.

Abbreviation Outcome := (M store (option response)).

(** One call on a client. *)
Definition invoke (c : call) : M store pyval :=
  fun w =>
    let (r, s) := service c (rules w) in
    (r, World s (log w ++ [c])).

(** [return json_response(message, code)] *)
Definition respond (message : string) (code : Z) : Outcome :=
  ret (Some (json_response (PStr message) code)).

(** [except Exception as e: return json_response(str(e), 400)] *)
Definition on_exception (e : pyexn) : Outcome :=
  respond (exn_str e) 400.

(** [json.loads(v)]: the argument has to be a string. *)
Definition loads (v : pyval) : pyres pyval :=
  match v with
  | PStr s => json_loads s
  | _ => Raise (PyExn TypeError
                  ("the JSON object must be str, bytes or bytearray, not "
                     ++ type_name v))
  end.

Definition query_rule (requestBody : pyval) : Outcome :=
  id <- lift (read_body_parameter requestBody "id") ;;
  let name := str id in
  try_except
    (if negb (truthy (PStr name)) then
       query_result <- invoke ListRules ;;
       ret (Some (json_response query_result 200))
     else if negb (validate_name name) then
       respond Msg.bad_name 400
     else
       query_result <- invoke (DescribeRule name) ;;
       ret (Some (json_response query_result 200)))
    on_exception.

Definition create_rule (requestBody executerArn : pyval) : Outcome :=
  id <- lift (read_body_parameter requestBody "id") ;;
  let name := str id in
  date <- lift (read_body_parameter requestBody "date") ;;
  if negb (truthy (PStr name)) then respond Msg.id_empty 400
  else if negb (truthy date) then respond Msg.no_date 400
  else if negb (validate_name name) then respond Msg.bad_name 400
  else
    match validate_date date with
    | None => respond Msg.bad_date 400
    | Some datetime_object =>
        try_except
          (let cron_expression := cron_of datetime_object in
           new_rule_response <-
             invoke (PutRule name (PStr cron_expression) (PStr "ENABLED")) ;;
           created_rule_response <-
             invoke (PutTargets name
                       [ {| Arn := executerArn; Id := name;
                            Input := target_input name |} ]) ;;
           arn <- lift (getitem new_rule_response "RuleArn") ;;
           message <- lift (concat_str Msg.created arn) ;;
           respond message 200)
          on_exception
    end.

Definition update_rule (requestBody : pyval) : Outcome :=
  id <- lift (read_body_parameter requestBody "id") ;;
  let name := str id in
  date <- lift (read_body_parameter requestBody "date") ;;
  state <- lift (read_body_parameter requestBody "state") ;;
  if negb (truthy (PStr name)) then respond Msg.id_empty 400
  else if negb (truthy date) && negb (truthy state) then
    respond Msg.nothing_to_update 400
  else if negb (validate_name name) then respond Msg.bad_name 400
  else
    let datetime_object :=
      if truthy date then validate_date date else None in
    state_rejected <-
      (if truthy state then
         u <- lift (method_upper state) ;;
         ret (negb (String.eqb u "ENABLED") && negb (String.eqb u "DISABLED"))
       else ret false) ;;
    if (state_rejected : bool) then respond Msg.bad_state 400
    else
      try_except
        (let cron_expression := option_map cron_of datetime_object in
         query_result <- invoke (DescribeRule name) ;;
         schedule <-
           match cron_expression with
           | Some c => ret (PStr c)
           | None => lift (getitem query_result "ScheduleExpression")
           end ;;
         new_state <-
           (if truthy state then
              u <- lift (method_upper state) ;; ret (PStr u)
            else lift (getitem query_result "State")) ;;
         updated_rule_response <- invoke (PutRule name schedule new_state) ;;
         arn <- lift (getitem updated_rule_response "RuleArn") ;;
         message <- lift (concat_str Msg.updated arn) ;;
         respond message 200)
        on_exception.

(** In [delete_rule] the local [delete_rule_response] is assigned only when
    the answer of [remove_targets] is true: it is an [option] here, and
    reading it unassigned raises inside the [try]. *)
Definition delete_rule (requestBody : pyval) : Outcome :=
  id <- lift (read_body_parameter requestBody "id") ;;
  let name := str id in
  if negb (truthy (PStr name)) then respond Msg.id_empty 400
  else if negb (validate_name name) then respond Msg.bad_name 400
  else
    try_except
      (remove_targets_response <- invoke (RemoveTargets name [name] true) ;;
       delete_rule_response <-
         (if truthy remove_targets_response then
            r <- invoke (DeleteRule name true) ;; ret (Some r)
          else ret None) ;;
       match delete_rule_response with
       | None => raise (unbound_local "delete_rule_response")
       | Some r =>
           if truthy r then respond Msg.deleted 200
           else ret None
       end)
      on_exception.

(** [json.loads(event['body'])], the body of the first [try]. *)
Definition load_body (event : pyval) : pyres pyval :=
  match getitem event "body" with
  | Ret b => loads b
  | Raise e => Raise e
  end.

(** [handler(event, context)]; [env] is [os.environ['ENV']], and a result
    of [None] is the function running off its end. *)
Definition handler (env : string) (event : pyval) : Outcome :=
  match load_body event with
  | Raise e => on_exception e
  | Ret request_body =>
      method <- lift (getitem event "httpMethod") ;;
      if negb (eq_str method "POST") then respond Msg.wrong_method 405
      else
        match getitem request_body "action" with
        | Raise e =>
            match exn_cls e with
            | KeyError => respond Msg.no_action 400
            | _ => raise e
            end
        | Ret action =>
            if negb (truthy action)
               && negb (eq_str action "create") && negb (eq_str action "query")
               && negb (eq_str action "delete") && negb (eq_str action "update")
            then respond Msg.bad_action 400
            else
              response <- invoke (GetFunction ("alarmsExecuter-" ++ env)) ;;
              configuration <- lift (getitem response "Configuration") ;;
              executerArn <- lift (getitem configuration "FunctionArn") ;;
              if eq_str action "create" then
                create_rule request_body executerArn
              else if eq_str action "query" then query_rule request_body
              else if eq_str action "update" then update_rule request_body
              else if eq_str action "delete" then delete_rule request_body
              else ret None
        end
  end.

End Handler.

Arguments invoke {store} service c w.
Arguments respond {store} message code w.
Arguments on_exception {store} e w.
Arguments query_rule {store} service requestBody w.
Arguments create_rule {store} service requestBody executerArn w.
Arguments update_rule {store} service requestBody w.
Arguments delete_rule {store} service requestBody w.
Arguments handler {store} json_loads service env event w.

(** ** Sample platforms

    Concrete oracles, to run the handler on explicit requests. *)

Module Sample.
Import PyString Py Platform.

(** A JSON object of string fields, as text. *)
Definition object_text (fields : list (string * string)) : string :=
  "{" ++ join ", " (map (fun kv => quoted (fst kv) ++ ": " ++ quoted (snd kv)) fields)
      ++ "}".

Definition object_value (fields : list (string * string)) : pyval :=
  PDict (map (fun kv => (fst kv, PStr (snd kv))) fields).

(** [json.loads] on the texts of a table; any other text is taken not to
    be JSON at its first character, as "not json" is. *)
Fixpoint loads_table (table : list (list (string * string))) (text : string)
  : pyres pyval :=
  match table with
  | [] => Raise (PyExn JSONDecodeError "Expecting value: line 1 column 1 (char 0)")
  | fields :: r =>
      if String.eqb text (object_text fields) then Ret (object_value fields)
      else loads_table r text
  end.

Definition create_job1 : list (string * string) :=
  [("action", "create"); ("id", "job-1"); ("date", "2030-01-01 09:30:00")].
Definition create_spaced : list (string * string) :=
  [("action", "create"); ("id", "job 1"); ("date", "2030-01-01 09:30:00")].
Definition update_nothing : list (string * string) :=
  [("action", "update"); ("id", "job-1")].
Definition update_enabled : list (string * string) :=
  [("action", "update"); ("id", "job-1"); ("state", "enabled")].
Definition update_bad_date : list (string * string) :=
  [("action", "update"); ("id", "job-1"); ("date", "not-a-date")].
Definition delete_job1 : list (string * string) :=
  [("action", "delete"); ("id", "job-1")].
Definition query_all : list (string * string) :=
  [("action", "query"); ("id", "")].
Definition query_job1 : list (string * string) :=
  [("action", "query"); ("id", "job-1")].
Definition unknown_action : list (string * string) :=
  [("action", "purge"); ("id", "job-1")].

Definition json_loads : string -> pyres pyval :=
  loads_table [create_job1; create_spaced; update_nothing; update_enabled;
               update_bad_date; delete_job1; query_all; query_job1;
               unknown_action].

(** The event the gateway builds for a method and a body text. *)
Definition event (method text : string) : pyval :=
  PDict [("httpMethod", PStr method); ("body", PStr text)].

Definition post (fields : list (string * string)) : pyval :=
  event "POST" (object_text fields).

(** An in-memory rule scheduler and function registry. *)
Record rule : Type := Rule {
  rule_name : string;
  rule_schedule : pyval;
  rule_state : pyval;
  rule_targets : list target
}.

Definition rule_store : Type := list rule.

Definition rule_arn (name : string) : string := "arn:aws:events:rule/" ++ name.

Definition describe (r : rule) : pyval :=
  PDict [("Name", PStr (rule_name r)); ("Arn", PStr (rule_arn (rule_name r)));
         ("ScheduleExpression", rule_schedule r); ("State", rule_state r)].

Fixpoint find_rule (name : string) (s : rule_store) : option rule :=
  match s with
  | [] => None
  | r :: t => if String.eqb (rule_name r) name then Some r else find_rule name t
  end.

Definition remove_rule (name : string) (s : rule_store) : rule_store :=
  filter (fun r => negb (String.eqb (rule_name r) name)) s.

Definition not_found (operation name : string) : pyexn :=
  PyExn ClientError
    ("An error occurred (ResourceNotFoundException) when calling the "
       ++ operation ++ " operation: Rule " ++ name ++ " does not exist.").

Definition no_failed_entries : pyval :=
  PDict [("FailedEntryCount", PInt 0); ("FailedEntries", PList [])].

Definition scheduler (c : call) (s : rule_store) : pyres pyval * rule_store :=
  match c with
  | GetFunction fn =>
      (Ret (PDict [("Configuration",
                    PDict [("FunctionName", PStr fn);
                           ("FunctionArn", PStr ("arn:aws:lambda:function:" ++ fn))])]),
       s)
  | ListRules => (Ret (PDict [("Rules", PList (map describe s))]), s)
  | DescribeRule name =>
      match find_rule name s with
      | Some r => (Ret (describe r), s)
      | None => (Raise (not_found "DescribeRule" name), s)
      end
  | PutRule name schedule state =>
      let targets := match find_rule name s with
                     | Some r => rule_targets r
                     | None => []
                     end in
      (Ret (PDict [("RuleArn", PStr (rule_arn name))]),
       Rule name schedule state targets :: remove_rule name s)
  | PutTargets name targets =>
      match find_rule name s with
      | Some r =>
          (Ret no_failed_entries,
           Rule name (rule_schedule r) (rule_state r)
                (rule_targets r ++ targets)%list :: remove_rule name s)
      | None => (Raise (not_found "PutTargets" name), s)
      end
  | RemoveTargets name ids _ =>
      match find_rule name s with
      | Some r =>
          (Ret no_failed_entries,
           Rule name (rule_schedule r) (rule_state r)
                (filter (fun t => negb (existsb (String.eqb (Id t)) ids))
                        (rule_targets r)) :: remove_rule name s)
      | None => (Raise (not_found "RemoveTargets" name), s)
      end
  | DeleteRule name _ =>
      (Ret (PDict [("ResponseMetadata", PDict [("HTTPStatusCode", PInt 200)])]),
       remove_rule name s)
  end.

(** A store that holds the rule job-1, firing daily at 07:15. *)
Definition one_rule : rule_store :=
  [ Rule "job-1" (PStr "cron(15 7 * * ? *)") (PStr "DISABLED")
         [ Target (PStr "arn:aws:lambda:function:alarmsExecuter-dev") "job-1"
                  (target_input "job-1") ] ].

(** Services without a store, answering each call by a fixed rule. *)
Definition scripted (answer : call -> pyres pyval) (c : call) (s : unit)
  : pyres pyval * unit :=
  (answer c, s).

Definition function_found : pyval :=
  PDict [("Configuration",
          PDict [("FunctionArn", PStr "arn:aws:lambda:function:alarmsExecuter-dev")])].

(** A scheduler whose [remove_targets] answers with an empty dict. *)
Definition silent_detach (c : call) : pyres pyval :=
  match c with
  | GetFunction _ => Ret function_found
  | RemoveTargets _ _ _ => Ret (PDict [])
  | _ => Ret no_failed_entries
  end.

(** A registry that does not know the executor. *)
Definition no_executor (c : call) : pyres pyval :=
  match c with
  | GetFunction fn =>
      Raise (PyExn ClientError
               ("An error occurred (ResourceNotFoundException) when calling the GetFunction operation: Function not found: "
                  ++ fn))
  | _ => Ret no_failed_entries
  end.

Definition start {store : Type} (s : store) : world store := World s [].

End Sample.

(** ** Vocabulary of the statements *)

Module Spec.
Import PyString Py Platform.

(** The executor's identity is resolved: from store [s0] the lookup by the
    fixed name suffixed with the environment answers, leaves [s1], and the
    answer holds [arn] under Configuration, FunctionArn. *)
Definition identity_resolved {store : Type}
  (service : call -> store -> pyres pyval * store)
  (env : string) (s0 : store) (arn : pyval) (s1 : store) : Prop :=
  exists response configuration,
    service (GetFunction ("alarmsExecuter-" ++ env)) s0 = (Ret response, s1)
    /\ getitem response "Configuration" = Ret configuration
    /\ getitem configuration "FunctionArn" = Ret arn.

(** The action is one of the four the dispatch knows. *)
Definition recognized (action : pyval) : bool :=
  eq_str action "create" || eq_str action "query"
  || eq_str action "update" || eq_str action "delete".

(** Two JSON texts that hold no blank inside a string denote the same value
    only if they agree once the blanks are removed. *)
Definition same_json_text (a b : string) : Prop :=
  strip_blanks a = strip_blanks b.

(** The field constraints of each operation, in the order the operation
    checks them: whether the constraint is broken, and the message that
    names it. *)
Definition state_unknown (state : pyval) : bool :=
  match state with
  | PStr s =>
      negb (String.eqb s "") && negb (String.eqb (upper s) "ENABLED")
      && negb (String.eqb (upper s) "DISABLED")
  | _ => false
  end.

Definition date_unreadable (date : pyval) : bool :=
  match validate_date date with
  | Some _ => false
  | None => true
  end.

Definition checks (action : string) (id date state : pyval)
  : list (bool * string) :=
  let id_empty := (String.eqb (str id) "", Msg.id_empty) in
  let bad_name := (negb (validate_name (str id)), Msg.bad_name) in
  if String.eqb action "create" then
    [ id_empty; (negb (truthy date), Msg.no_date); bad_name;
      (date_unreadable date, Msg.bad_date) ]
  else if String.eqb action "query" then
    [ (negb (String.eqb (str id) "") && negb (validate_name (str id)),
       Msg.bad_name) ]
  else if String.eqb action "update" then
    [ id_empty;
      (negb (truthy date) && negb (truthy state), Msg.nothing_to_update);
      bad_name; (state_unknown state, Msg.bad_state) ]
  else if String.eqb action "delete" then [ id_empty; bad_name ]
  else [].

Fixpoint first_failed (l : list (bool * string)) : option string :=
  match l with
  | [] => None
  | (true, message) :: _ => Some message
  | (false, _) :: r => first_failed r
  end.

(** What [update] hands to [put_rule]: the schedule derived from a date
    that is given and readable, else the one read back from the rule; the
    given state in upper case, else the one read back. *)
Definition applied_schedule (date query_result : pyval) : pyres pyval :=
  match (if truthy date then validate_date date else None) with
  | Some d => Ret (PStr (cron_of d))
  | None => getitem query_result "ScheduleExpression"
  end.

Definition applied_state (state query_result : pyval) : pyres pyval :=
  if truthy state then
    match state with
    | PStr s => Ret (PStr (upper s))
    | _ => Raise (PyExn AttributeError
                    ("'" ++ type_name state ++ "' object has no attribute 'upper'"))
    end
  else getitem query_result "State".

(** The state field is left out, or names one of the two states in any
    letter case. *)
Definition state_accepted (state : pyval) : bool :=
  negb (truthy state)
  || match state with
     | PStr s => String.eqb (upper s) "ENABLED" || String.eqb (upper s) "DISABLED"
     | _ => false
     end.

(** What a query answers from the outcome of its one call. *)
Definition query_answer (r : pyres pyval) : pyres (option response) :=
  match r with
  | Ret query_result => Ret (Some (json_response query_result 200))
  | Raise e => Ret (Some (json_response (PStr (exn_str e)) 400))
  end.

End Spec.

(** ** Vocabulary of the statements on call sequences, dates and bodies *)

Module Shape.
Import PyString Py Platform.

(** The headers [json_response] gives every response. *)
Definition cors_headers : list (string * string) :=
  [ ("Access-Control-Allow-Headers", "*");
    ("Access-Control-Allow-Origin", "*");
    ("Access-Control-Allow-Methods", "POST") ].

(** A call to the scheduler that names its rule by a text matching the name
    pattern, and its targets by that same text. *)
Definition well_named (c : call) : bool :=
  match c with
  | GetFunction _ => false
  | ListRules => true
  | DescribeRule name => validate_name name
  | PutRule name _ _ => validate_name name
  | PutTargets name targets =>
      validate_name name && forallb (fun t => String.eqb (Id t) name) targets
  | RemoveTargets name ids _ => validate_name name && forallb (String.eqb name) ids
  | DeleteRule name _ => validate_name name
  end.

(** A call that changes nothing in the scheduler. *)
Definition reads_only (c : call) : bool :=
  match c with
  | ListRules | DescribeRule _ => true
  | _ => false
  end.

(** A call that attaches or detaches targets, or deletes a rule. *)
Definition touches_targets_or_deletes (c : call) : bool :=
  match c with
  | PutTargets _ _ | RemoveTargets _ _ _ | DeleteRule _ _ => true
  | _ => false
  end.

(** The call sequences of each operation. *)
Definition query_calls (calls : list call) : Prop :=
  calls = [] \/ calls = [ListRules]
  \/ exists name, validate_name name = true /\ calls = [DescribeRule name].

Definition create_calls (arn : pyval) (calls : list call) : Prop :=
  calls = []
  \/ exists name d,
       validate_name name = true
       /\ (calls = [PutRule name (PStr (cron_of d)) (PStr "ENABLED")]
           \/ calls = [PutRule name (PStr (cron_of d)) (PStr "ENABLED");
                       PutTargets name
                         [ {| Arn := arn; Id := name; Input := target_input name |} ]]).

Definition update_calls (calls : list call) : Prop :=
  calls = []
  \/ exists name,
       validate_name name = true
       /\ (calls = [DescribeRule name]
           \/ exists schedule state,
                calls = [DescribeRule name; PutRule name schedule state]).

Definition delete_calls (calls : list call) : Prop :=
  calls = []
  \/ exists name,
       validate_name name = true
       /\ (calls = [RemoveTargets name [name] true]
           \/ calls = [RemoveTargets name [name] true; DeleteRule name true]).

(** What an operation may answer: nothing, an exception, or a response
    with the fixed headers and status 400, or 200 after its [n] calls. *)
Definition answer_ok (n : nat) (out : pyres (option response))
  (calls : list call) : Prop :=
  match out with
  | Ret (Some r) =>
      headers r = cors_headers
      /\ (statusCode r = 400 \/ (statusCode r = 200 /\ length calls = n))
  | _ => True
  end.

(** The call sequences of the handler: none, or the identity lookup
    followed by at most two calls to the scheduler, each well named. *)
Definition handler_calls (env : string) (calls : list call) : Prop :=
  calls = []
  \/ exists rest,
       calls = GetFunction ("alarmsExecuter-" ++ env) :: rest
       /\ (length rest <= 2)%nat
       /\ forallb well_named rest = true.

(** What the handler may answer, against the calls it issued. *)
Definition handler_answer (out : pyres (option response)) (calls : list call)
  : Prop :=
  match out with
  | Ret (Some r) =>
      headers r = cors_headers
      /\ ((statusCode r = 405 /\ calls = [])
          \/ statusCode r = 400
          \/ (statusCode r = 200 /\ (2 <= length calls)%nat))
  | _ => True
  end.

(** Dates: the fields of a calendar date and time of day, and its text in
    the form YYYY-MM-DD HH:MM:SS, every field padded with zeros. *)
Definition in_calendar (d : Strptime.datetime) : Prop :=
  1 <= Strptime.year d <= 9999
  /\ 1 <= Strptime.month d <= 12
  /\ 1 <= Strptime.day d <= Strptime.days_in_month (Strptime.year d) (Strptime.month d)
  /\ 0 <= Strptime.hour d <= 23
  /\ 0 <= Strptime.minute d <= 59
  /\ 0 <= Strptime.second d <= 59.

Definition digit_char (n : Z) : ascii := ascii_of_N (48 + Z.to_N n).

Definition pad2 (n : Z) (rest : string) : string :=
  String (digit_char (n / 10)) (String (digit_char (n mod 10)) rest).

Definition pad4 (n : Z) (rest : string) : string :=
  String (digit_char (n / 1000))
    (String (digit_char ((n / 100) mod 10)) (pad2 (n mod 100) rest)).

Definition iso_text (d : Strptime.datetime) : string :=
  pad4 (Strptime.year d) (String "-" (pad2 (Strptime.month d) (String "-"
    (pad2 (Strptime.day d) (String " " (pad2 (Strptime.hour d) (String ":"
      (pad2 (Strptime.minute d) (String ":" (pad2 (Strptime.second d) "")))))))))).

(** The request is a POST whose body decodes to [request_body] with the
    action [action], and the identity lookup answers [arn], taking the store
    from [s0] to [s1]: the handler reaches the operation. *)
Definition reaches {store : Type} (json_loads : string -> pyres pyval)
  (service : call -> store -> pyres pyval * store) (env : string)
  (event : pyval) (action : string) (request_body : pyval)
  (s0 : store) (arn : pyval) (s1 : store) : Prop :=
  load_body json_loads event = Ret request_body
  /\ getitem event "httpMethod" = Ret (PStr "POST")
  /\ getitem request_body "action" = Ret (PStr action)
  /\ Spec.identity_resolved service env s0 arn s1.

(** The first match of a matcher on a text, the one the regular expression
    engine returns. *)
Definition first_match {A} (l : list (A * string)) (x : A * string) : Prop :=
  exists tail, l = x :: tail.

(** The text holds two backslashes in a row. *)
Fixpoint has_double_backslash (s : string) : bool :=
  match s with
  | String c (String d _ as t) =>
      (Ascii.eqb c backslash && Ascii.eqb d backslash) || has_double_backslash t
  | _ => false
  end.

(** A character that [json.dumps] writes as it is. *)
Definition plain_char (c : ascii) : bool :=
  in_range 32 126 c && negb (Ascii.eqb c dquote) && negb (Ascii.eqb c backslash).

End Shape.

(** ** Further sample platforms *)

Module Scenario.
Import PyString Py Platform.

(** [json.loads] on the text [json.dumps] writes for one value. *)
Definition decoder (v : pyval) (text : string) : pyres pyval :=
  if String.eqb text (Json.dumps v) then Ret v
  else Raise (PyExn JSONDecodeError "Expecting value: line 1 column 1 (char 0)").

Definition post (v : pyval) : pyval := Sample.event "POST" (Json.dumps v).

Definition client_error (operation : string) : pyexn :=
  PyExn ClientError
    ("An error occurred (InternalException) when calling the " ++ operation
       ++ " operation: internal failure").

(** A scheduler whose [put_rule] fails. *)
Definition put_rule_fails (c : call) : pyres pyval :=
  match c with
  | GetFunction _ => Ret Sample.function_found
  | PutRule _ _ _ => Raise (client_error "PutRule")
  | _ => Ret Sample.no_failed_entries
  end.

(** A scheduler whose [put_targets] fails. *)
Definition put_targets_fails (c : call) : pyres pyval :=
  match c with
  | GetFunction _ => Ret Sample.function_found
  | PutRule name _ _ => Ret (PDict [("RuleArn", PStr (Sample.rule_arn name))])
  | PutTargets _ _ => Raise (client_error "PutTargets")
  | _ => Ret Sample.no_failed_entries
  end.

(** A scheduler whose [delete_rule] answers [None]. *)
Definition delete_answers_none (c : call) : pyres pyval :=
  match c with
  | GetFunction _ => Ret Sample.function_found
  | DeleteRule _ _ => Ret PNone
  | _ => Ret Sample.no_failed_entries
  end.

(** A scheduler whose [delete_rule] fails. *)
Definition delete_fails (c : call) : pyres pyval :=
  match c with
  | GetFunction _ => Ret Sample.function_found
  | DeleteRule _ _ => Raise (client_error "DeleteRule")
  | _ => Ret Sample.no_failed_entries
  end.

(** A registry whose answer has no Configuration. *)
Definition no_configuration (c : call) : pyres pyval :=
  match c with
  | GetFunction _ => Ret (PDict [("ResponseMetadata", PDict [])])
  | _ => Ret Sample.no_failed_entries
  end.

(** The sample scheduler, except that [put_targets] fails. *)
Definition scheduler_without_targets (c : call) (s : Sample.rule_store)
  : pyres pyval * Sample.rule_store :=
  match c with
  | PutTargets _ _ => (Raise (client_error "PutTargets"), s)
  | _ => Sample.scheduler c s
  end.

Definition executor : pyval := PStr "arn:aws:lambda:function:alarmsExecuter-dev".

Definition lookup : call := GetFunction "alarmsExecuter-dev".

(** Bodies. *)
Definition no_action : pyval := PDict [("id", PStr "job-1")].
Definition empty_action : pyval := PDict [("action", PStr ""); ("id", PStr "job-1")].
Definition numbers : pyval := PList [PInt 1; PInt 2].
Definition create_nightly : pyval :=
  PDict [("action", PStr "create"); ("id", PStr "nightly.backup_2");
         ("date", PStr "2031-12-31 23:05:59")].
Definition update_state_one : pyval :=
  PDict [("action", PStr "update"); ("id", PStr "job-1"); ("state", PInt 1)].
Definition update_date : pyval :=
  PDict [("action", PStr "update"); ("id", PStr "job-1");
         ("date", PStr "2030-01-01 09:30:00")].

End Scenario.

(** ** Properties *)

Import PyString Py Platform Spec.

Section Properties.

Context {store : Type}.
Variable json_loads : string -> pyres pyval.
Variable service : call -> store -> pyres pyval * store.

(** *** Running a computation step by step *)

Lemma run_ret {A B} (a : A) (k : A -> M store B) w :
  bind (ret a) k w = k a w.
Proof. reflexivity. Qed.

Lemma run_lift_ret {A B} (a : A) (k : A -> M store B) w :
  bind (lift (Ret a)) k w = k a w.
Proof. reflexivity. Qed.

Lemma run_lift_raise {A B} e (k : A -> M store B) w :
  bind (lift (Raise e)) k w = (Raise e, w).
Proof. reflexivity. Qed.

Lemma run_invoke {B} c v s s' l (k : pyval -> M store B) :
  service c s = (Ret v, s') ->
  bind (invoke service c) k (World s l) = k v (World s' (l ++ [c])).
Proof. intros H. unfold bind, invoke. cbn [rules log]. rewrite H. reflexivity. Qed.

Lemma run_invoke_raise {B} c e s s' l (k : pyval -> M store B) :
  service c s = (Raise e, s') ->
  bind (invoke service c) k (World s l) = (Raise e, World s' (l ++ [c])).
Proof. intros H. unfold bind, invoke. cbn [rules log]. rewrite H. reflexivity. Qed.

Lemma run_try {A} (m : M store A) h w a w' :
  m w = (Ret a, w') -> try_except m h w = (Ret a, w').
Proof. intros H. unfold try_except. rewrite H. reflexivity. Qed.

Lemma run_except {A} (m : M store A) h w e w' :
  m w = (Raise e, w') -> try_except m h w = h e w'.
Proof. intros H. unfold try_except. rewrite H. reflexivity. Qed.

Lemma eq_str_same s : eq_str (PStr s) s = true.
Proof. apply String.eqb_refl. Qed.

(** *** The first steps of [handler] *)

Lemma handler_unparsable env event e w :
  load_body json_loads event = Raise e ->
  handler json_loads service env event w
  = (Ret (Some (json_response (PStr (exn_str e)) 400)), w).
Proof.
  intros H. unfold handler. rewrite H. reflexivity.
Qed.

Lemma truthy_of_recognized action :
  recognized action = true -> truthy action = true.
Proof.
  unfold recognized, eq_str. destruct action; simpl; try discriminate.
  destruct s; simpl; [discriminate | reflexivity].
Qed.

(** A POST request whose action is true reaches the dispatch, after the
    identity lookup. *)
Lemma handler_dispatch env event request_body action s0 arn s1 l :
  load_body json_loads event = Ret request_body ->
  getitem event "httpMethod" = Ret (PStr "POST") ->
  getitem request_body "action" = Ret action ->
  truthy action = true ->
  identity_resolved service env s0 arn s1 ->
  handler json_loads service env event (World s0 l)
  = (if eq_str action "create" then create_rule service request_body arn
     else if eq_str action "query" then query_rule service request_body
     else if eq_str action "update" then update_rule service request_body
     else if eq_str action "delete" then delete_rule service request_body
     else ret None)
      (World s1 (l ++ [GetFunction ("alarmsExecuter-" ++ env)])).
Proof.
  intros Hbody Hmethod Haction Htrue (response & configuration & Hcall & Hconf & Harn).
  unfold handler. rewrite Hbody, Hmethod, run_lift_ret, eq_str_same.
  cbn [negb]. rewrite Haction, Htrue. cbn [negb andb].
  rewrite (run_invoke _ _ _ _ _ _ Hcall), Hconf, run_lift_ret, Harn, run_lift_ret.
  reflexivity.
Qed.

Lemma read_present request_body key v :
  getitem request_body key = Ret v ->
  read_body_parameter request_body key = Ret v.
Proof. intros H. unfold read_body_parameter. rewrite H. reflexivity. Qed.

Lemma read_absent request_body key :
  getitem request_body key = Raise (key_error key) ->
  read_body_parameter request_body key = Ret (PStr "").
Proof. intros H. unfold read_body_parameter. rewrite H. reflexivity. Qed.

Lemma nonempty_of_valid name :
  validate_name name = true -> truthy (PStr name) = true.
Proof.
  unfold validate_name, truthy. intros H.
  apply andb_true_iff in H. tauto.
Qed.

(** *** Rejections before any call of the operation *)

Lemma create_rule_rejects request_body arn id date state message w :
  read_body_parameter request_body "id" = Ret id ->
  read_body_parameter request_body "date" = Ret date ->
  first_failed (checks "create" id date state) = Some message ->
  create_rule service request_body arn w
  = (Ret (Some (json_response (PStr message) 400)), w).
Proof.
  intros Hid Hdate H. unfold create_rule.
  rewrite Hid, run_lift_ret, Hdate, run_lift_ret.
  cbn [checks String.eqb Ascii.eqb Bool.eqb first_failed] in H.
  cbn [truthy]. rewrite negb_involutive.
  destruct (String.eqb (str id) "").
  { injection H as <-. reflexivity. }
  destruct (truthy date); cbn [negb] in *.
  2:{ injection H as <-. reflexivity. }
  destruct (validate_name (str id)); cbn [negb] in *.
  2:{ injection H as <-. reflexivity. }
  unfold date_unreadable in H.
  destruct (validate_date date); cbn [first_failed] in H; [discriminate |].
  injection H as <-. reflexivity.
Qed.

Lemma query_rule_rejects request_body id date state message w :
  read_body_parameter request_body "id" = Ret id ->
  first_failed (checks "query" id date state) = Some message ->
  query_rule service request_body w
  = (Ret (Some (json_response (PStr message) 400)), w).
Proof.
  intros Hid H. unfold query_rule. rewrite Hid, run_lift_ret.
  cbn [checks String.eqb Ascii.eqb Bool.eqb first_failed] in H.
  cbn [truthy]. rewrite negb_involutive.
  destruct (String.eqb (str id) ""); cbn [negb andb first_failed] in H;
    [discriminate |].
  destruct (validate_name (str id)); cbn [negb first_failed] in *;
    [discriminate |].
  injection H as <-. reflexivity.
Qed.

Lemma update_rule_rejects request_body id date state message w :
  read_body_parameter request_body "id" = Ret id ->
  read_body_parameter request_body "date" = Ret date ->
  read_body_parameter request_body "state" = Ret state ->
  first_failed (checks "update" id date state) = Some message ->
  update_rule service request_body w
  = (Ret (Some (json_response (PStr message) 400)), w).
Proof.
  intros Hid Hdate Hstate H. unfold update_rule.
  rewrite Hid, run_lift_ret, Hdate, run_lift_ret, Hstate, run_lift_ret.
  cbn [checks String.eqb Ascii.eqb Bool.eqb first_failed] in H.
  change (truthy (PStr (str id))) with (negb (String.eqb (str id) "")).
  rewrite negb_involutive.
  destruct (String.eqb (str id) "").
  { injection H as <-. reflexivity. }
  destruct (negb (truthy date) && negb (truthy state)).
  { injection H as <-. reflexivity. }
  destruct (validate_name (str id)); cbn [negb] in *.
  2:{ injection H as <-. reflexivity. }
  unfold state_unknown in H.
  destruct state; cbn [first_failed] in H; try discriminate.
  cbn [truthy method_upper].
  destruct (String.eqb s ""); cbn [negb andb first_failed] in *;
    [discriminate |].
  unfold bind at 1 2, lift, ret at 1. cbv beta iota.
  destruct (negb (String.eqb (upper s) "ENABLED")
            && negb (String.eqb (upper s) "DISABLED"));
    cbn [first_failed] in H; [| discriminate].
  injection H as <-. reflexivity.
Qed.

Lemma delete_rule_rejects request_body id date state message w :
  read_body_parameter request_body "id" = Ret id ->
  first_failed (checks "delete" id date state) = Some message ->
  delete_rule service request_body w
  = (Ret (Some (json_response (PStr message) 400)), w).
Proof.
  intros Hid H. unfold delete_rule. rewrite Hid, run_lift_ret.
  cbn [checks String.eqb Ascii.eqb Bool.eqb first_failed] in H.
  cbn [truthy]. rewrite negb_involutive.
  destruct (String.eqb (str id) "").
  { injection H as <-. reflexivity. }
  destruct (validate_name (str id)); cbn [negb first_failed] in *;
    [discriminate |].
  injection H as <-. reflexivity.
Qed.

(** *** Update, once the request is accepted *)

Lemma state_check_passes state :
  state_accepted state = true ->
  (if truthy state then
     (u <- lift (method_upper state) ;;
      ret (negb (String.eqb u "ENABLED") && negb (String.eqb u "DISABLED")))%py
   else ret false)
  = (ret false : M store bool).
Proof.
  unfold state_accepted. intros H.
  destruct (truthy state) eqn:Htrue; [| reflexivity].
  cbn [negb orb] in H. destruct state; try discriminate.
  cbn [method_upper]. unfold bind, lift, ret. cbv beta iota.
  apply orb_true_iff in H.
  destruct H as [H | H]; rewrite H; cbn [negb andb].
  - reflexivity.
  - rewrite andb_false_r. reflexivity.
Qed.

Lemma applied_state_run state query_result :
  (if truthy state then (u <- lift (method_upper state) ;; ret (PStr u))%py
   else lift (getitem query_result "State"))
  = (lift (applied_state state query_result) : M store pyval).
Proof.
  unfold applied_state. destruct (truthy state); [| reflexivity].
  destruct state; reflexivity.
Qed.

Lemma applied_schedule_run date query_result :
  match option_map cron_of (if truthy date then validate_date date else None) with
  | Some c => ret (PStr c)
  | None => lift (getitem query_result "ScheduleExpression")
  end
  = (lift (applied_schedule date query_result) : M store pyval).
Proof.
  unfold applied_schedule.
  destruct (if truthy date then validate_date date else None); reflexivity.
Qed.

Lemma update_rule_applies
  request_body id date state query_result schedule new_state rule_response rule_arn
  s1 s2 s3 l :
  read_body_parameter request_body "id" = Ret id ->
  read_body_parameter request_body "date" = Ret date ->
  read_body_parameter request_body "state" = Ret state ->
  validate_name (str id) = true ->
  truthy date || truthy state = true ->
  state_accepted state = true ->
  service (DescribeRule (str id)) s1 = (Ret query_result, s2) ->
  applied_schedule date query_result = Ret schedule ->
  applied_state state query_result = Ret new_state ->
  service (PutRule (str id) schedule new_state) s2 = (Ret rule_response, s3) ->
  getitem rule_response "RuleArn" = Ret (PStr rule_arn) ->
  update_rule service request_body (World s1 l)
  = (Ret (Some (json_response (PStr (Msg.updated ++ rule_arn)) 200)),
     World s3 (l ++ [DescribeRule (str id)]
                 ++ [PutRule (str id) schedule new_state])%list).
Proof.
  intros Hid Hdate Hstate Hname Hgiven Haccepted Hdescribe Hsched Hnew Hput Harn.
  unfold update_rule.
  rewrite Hid, run_lift_ret, Hdate, run_lift_ret, Hstate, run_lift_ret.
  rewrite (nonempty_of_valid _ Hname), Hname. cbn [negb].
  rewrite <- negb_orb, Hgiven. cbn [negb].
  rewrite (state_check_passes _ Haccepted), run_ret.
  erewrite run_try; [reflexivity |].
  rewrite (run_invoke _ _ _ _ _ _ Hdescribe).
  rewrite applied_schedule_run, Hsched, run_lift_ret.
  rewrite applied_state_run, Hnew, run_lift_ret.
  rewrite (run_invoke _ _ _ _ _ _ Hput).
  rewrite Harn, run_lift_ret. cbn [concat_str]. rewrite run_lift_ret.
  unfold respond, ret. rewrite <- app_assoc. reflexivity.
Qed.

(** *** Delete, once the id is accepted *)

Lemma delete_rule_detaches request_body id w :
  read_body_parameter request_body "id" = Ret id ->
  validate_name (str id) = true ->
  delete_rule service request_body w
  = try_except
      (remove_targets_response <-
         invoke service (RemoveTargets (str id) [str id] true) ;;
       delete_rule_response <-
         (if truthy remove_targets_response then
            r <- invoke service (DeleteRule (str id) true) ;; ret (Some r)
          else ret None) ;;
       match delete_rule_response with
       | None => raise (unbound_local "delete_rule_response")
       | Some r => if truthy r then respond Msg.deleted 200 else ret None
       end)%py
      on_exception w.
Proof.
  intros Hid Hname. unfold delete_rule. rewrite Hid, run_lift_ret.
  rewrite (nonempty_of_valid _ Hname), Hname. reflexivity.
Qed.

(** *** Create *)

(** C1 (as the code has it).  A POST create request with id job-1 and date
    2030-01-01 09:30:00, on services that answer, derives the cron schedule
    of minute 30 and hour 9 with every other field a wildcard, puts the rule
    with state ENABLED, attaches one target for the executor and answers
    200.  The input of the target is the text
    [{ "id" : job-1 }], the id spliced in without quotes: it is not the JSON
    object that maps id to the string job-1. *)
Theorem create_job1_target_input_unquoted
  env event request_body s0 arn s1 rule_response rule_arn s2 targets_response s3 l :
  load_body json_loads event = Ret request_body ->
  getitem event "httpMethod" = Ret (PStr "POST") ->
  getitem request_body "action" = Ret (PStr "create") ->
  getitem request_body "id" = Ret (PStr "job-1") ->
  getitem request_body "date" = Ret (PStr "2030-01-01 09:30:00") ->
  identity_resolved service env s0 arn s1 ->
  service (PutRule "job-1" (PStr "cron(30 9 * * ? *)") (PStr "ENABLED")) s1
  = (Ret rule_response, s2) ->
  getitem rule_response "RuleArn" = Ret (PStr rule_arn) ->
  service (PutTargets "job-1"
             [ {| Arn := arn; Id := "job-1"; Input := target_input "job-1" |} ]) s2
  = (Ret targets_response, s3) ->
  handler json_loads service env event (World s0 l)
  = (Ret (Some (json_response (PStr (Msg.created ++ rule_arn)) 200)),
     World s3
       (l ++ [GetFunction ("alarmsExecuter-" ++ env)]
          ++ [PutRule "job-1" (PStr "cron(30 9 * * ? *)") (PStr "ENABLED")]
          ++ [PutTargets "job-1"
                [ {| Arn := arn; Id := "job-1";
                     Input := "{ " ++ quoted "id" ++ " : job-1 }" |} ]])%list)
  /\ ~ same_json_text ("{ " ++ quoted "id" ++ " : job-1 }")
                      (Json.dumps (PDict [("id", PStr "job-1")])).
Proof.
  intros Hbody Hmethod Haction Hid Hdate Hident Hput Harn Htargets.
  split; [| vm_compute; discriminate].
  rewrite (handler_dispatch _ _ _ _ _ _ _ _ Hbody Hmethod Haction eq_refl Hident).
  rewrite eq_str_same. unfold create_rule.
  rewrite (read_present _ _ _ Hid), run_lift_ret.
  rewrite (read_present _ _ _ Hdate), run_lift_ret.
  change (str (PStr "job-1")) with "job-1".
  change (truthy (PStr "job-1")) with true.
  change (truthy (PStr "2030-01-01 09:30:00")) with true.
  change (validate_name "job-1") with true.
  change (validate_date (PStr "2030-01-01 09:30:00"))
    with (Some (Strptime.Datetime 2030 1 1 9 30 0)).
  cbn [negb]. cbv beta iota.
  change (cron_of (Strptime.Datetime 2030 1 1 9 30 0)) with "cron(30 9 * * ? *)".
  erewrite run_try; [reflexivity |].
  rewrite (run_invoke _ _ _ _ _ _ Hput).
  rewrite (run_invoke _ _ _ _ _ _ Htargets).
  rewrite Harn, run_lift_ret. cbn [concat_str]. rewrite run_lift_ret.
  unfold respond, ret. rewrite <- !app_assoc. reflexivity.
Qed.

(** *** Method and action *)

(** C2 (amended).  For every request whose body parses as JSON and whose
    httpMethod is not POST, the handler answers 405, and no call is issued.
    (The body is parsed first: a request whose body does not parse is
    answered 400 before its method is looked at, see
    [handler_unparsable].) *)
Theorem non_post_parsable_body_405 env event request_body method w :
  load_body json_loads event = Ret request_body ->
  getitem event "httpMethod" = Ret method ->
  eq_str method "POST" = false ->
  handler json_loads service env event w
  = (Ret (Some (json_response (PStr Msg.wrong_method) 405)), w).
Proof.
  intros Hbody Hmethod Hother. unfold handler.
  rewrite Hbody, Hmethod, run_lift_ret, Hother. reflexivity.
Qed.

(** C3 (as the code has it).  A POST request whose action is a true value
    outside create, query, update and delete is not answered 400: the guard
    of the handler only fires on a false action, so the request goes through
    the identity lookup, matches no branch of the dispatch, and the handler
    runs off its end with no response. *)
Theorem unrecognized_action_falls_through
  env event request_body action s0 arn s1 l :
  load_body json_loads event = Ret request_body ->
  getitem event "httpMethod" = Ret (PStr "POST") ->
  getitem request_body "action" = Ret action ->
  truthy action = true ->
  recognized action = false ->
  identity_resolved service env s0 arn s1 ->
  handler json_loads service env event (World s0 l)
  = (Ret None, World s1 (l ++ [GetFunction ("alarmsExecuter-" ++ env)])).
Proof.
  intros Hbody Hmethod Haction Htrue Hunknown Hident.
  rewrite (handler_dispatch _ _ _ _ _ _ _ _ Hbody Hmethod Haction Htrue Hident).
  unfold recognized in Hunknown.
  repeat (apply orb_false_iff in Hunknown; destruct Hunknown as [Hunknown ?]).
  repeat match goal with H : eq_str _ _ = false |- _ => rewrite H; clear H end.
  reflexivity.
Qed.

(** C9 (amended).  When the identity lookup of the executor raises, on a
    POST request whose action passed the guard, nothing catches the
    exception: the handler ends with that exception, not with a 400 or 405
    response, and the lookup, issued once, is the only call.  (It is not the
    only failure that leaves the handler unanswered: a body that is not an
    object does so before the lookup.) *)
Theorem identity_lookup_failure_propagates
  env event request_body action s0 e s1 l :
  load_body json_loads event = Ret request_body ->
  getitem event "httpMethod" = Ret (PStr "POST") ->
  getitem request_body "action" = Ret action ->
  truthy action = true ->
  service (GetFunction ("alarmsExecuter-" ++ env)) s0 = (Raise e, s1) ->
  handler json_loads service env event (World s0 l)
  = (Raise e, World s1 (l ++ [GetFunction ("alarmsExecuter-" ++ env)])).
Proof.
  intros Hbody Hmethod Haction Htrue Hcall. unfold handler.
  rewrite Hbody, Hmethod, run_lift_ret, eq_str_same. cbn [negb].
  rewrite Haction, Htrue. cbn [negb andb].
  apply (run_invoke_raise _ _ _ _ _ _ Hcall).
Qed.

(** *** Validation *)

(** C5 (amended).  On a POST request for one of the four actions, once the
    identity lookup has answered, a broken field constraint is answered 400
    with the message of the first constraint broken, in the order the
    operation checks them; the lookup is the only call issued, so no call
    reaches the scheduling service, and the store is the one the lookup
    left. *)
Theorem validation_failure_400_before_scheduling
  env event request_body action id date state message s0 arn s1 l :
  load_body json_loads event = Ret request_body ->
  getitem event "httpMethod" = Ret (PStr "POST") ->
  getitem request_body "action" = Ret (PStr action) ->
  read_body_parameter request_body "id" = Ret id ->
  read_body_parameter request_body "date" = Ret date ->
  read_body_parameter request_body "state" = Ret state ->
  identity_resolved service env s0 arn s1 ->
  first_failed (checks action id date state) = Some message ->
  handler json_loads service env event (World s0 l)
  = (Ret (Some (json_response (PStr message) 400)),
     World s1 (l ++ [GetFunction ("alarmsExecuter-" ++ env)]))
  /\ existsb is_scheduling_call [GetFunction ("alarmsExecuter-" ++ env)] = false.
Proof.
  intros Hbody Hmethod Haction Hid Hdate Hstate Hident Hfailed.
  split; [| reflexivity].
  assert (Htrue : truthy (PStr action) = true).
  { destruct action; [discriminate Hfailed | reflexivity]. }
  rewrite (handler_dispatch _ _ _ _ _ _ _ _ Hbody Hmethod Haction Htrue Hident).
  cbn [eq_str].
  destruct (String.eqb action "create") eqn:Ecreate.
  { apply String.eqb_eq in Ecreate. subst action.
    exact (create_rule_rejects _ _ _ _ _ _ _ Hid Hdate Hfailed). }
  destruct (String.eqb action "query") eqn:Equery.
  { apply String.eqb_eq in Equery. subst action.
    exact (query_rule_rejects _ _ _ _ _ _ Hid Hfailed). }
  destruct (String.eqb action "update") eqn:Eupdate.
  { apply String.eqb_eq in Eupdate. subst action.
    exact (update_rule_rejects _ _ _ _ _ _ Hid Hdate Hstate Hfailed). }
  destruct (String.eqb action "delete") eqn:Edelete.
  { apply String.eqb_eq in Edelete. subst action.
    exact (delete_rule_rejects _ _ _ _ _ _ Hid Hfailed). }
  unfold checks in Hfailed.
  rewrite Ecreate, Equery, Eupdate, Edelete in Hfailed. discriminate Hfailed.
Qed.

(** *** Update *)

(** C7.  An update request with a valid id and a state that is ENABLED or
    DISABLED in any letter case is accepted: the rule is read back and put
    again, and the state handed to the put-rule call is the given one in
    upper case. *)
Theorem update_state_normalized
  env event request_body id date given query_result schedule rule_response
  rule_arn s0 arn s1 s2 s3 l :
  load_body json_loads event = Ret request_body ->
  getitem event "httpMethod" = Ret (PStr "POST") ->
  getitem request_body "action" = Ret (PStr "update") ->
  read_body_parameter request_body "id" = Ret id ->
  validate_name (str id) = true ->
  read_body_parameter request_body "date" = Ret date ->
  read_body_parameter request_body "state" = Ret (PStr given) ->
  upper given = "ENABLED" \/ upper given = "DISABLED" ->
  identity_resolved service env s0 arn s1 ->
  service (DescribeRule (str id)) s1 = (Ret query_result, s2) ->
  applied_schedule date query_result = Ret schedule ->
  service (PutRule (str id) schedule (PStr (upper given))) s2
  = (Ret rule_response, s3) ->
  getitem rule_response "RuleArn" = Ret (PStr rule_arn) ->
  handler json_loads service env event (World s0 l)
  = (Ret (Some (json_response (PStr (Msg.updated ++ rule_arn)) 200)),
     World s3 (l ++ [GetFunction ("alarmsExecuter-" ++ env)]
                 ++ [DescribeRule (str id)]
                 ++ [PutRule (str id) schedule (PStr (upper given))])%list).
Proof.
  intros Hbody Hmethod Haction Hid Hname Hdate Hstate Hcase Hident Hdescribe
    Hsched Hput Harn.
  assert (Htrue : truthy (PStr given) = true).
  { destruct given; [| reflexivity]. destruct Hcase; discriminate. }
  rewrite (handler_dispatch _ _ _ _ _ _ _ _ Hbody Hmethod Haction eq_refl Hident).
  cbn [eq_str String.eqb Ascii.eqb Bool.eqb].
  assert (Hgiven : truthy date || truthy (PStr given) = true).
  { rewrite Htrue. apply orb_true_r. }
  assert (Haccepted : state_accepted (PStr given) = true).
  { unfold state_accepted.
    destruct Hcase as [-> | ->]; rewrite ?orb_true_r; reflexivity. }
  assert (Hnew : applied_state (PStr given) query_result
                 = Ret (PStr (upper given))).
  { unfold applied_state. rewrite Htrue. reflexivity. }
  rewrite (update_rule_applies _ _ _ _ _ _ _ _ _ _ _ _ _ Hid Hdate Hstate Hname
             Hgiven Haccepted Hdescribe Hsched Hnew Hput Harn).
  rewrite <- !app_assoc. reflexivity.
Qed.

(** C10.  An update request with a valid id and a date that is given but
    does not read under the format (a state being left out or acceptable) is
    not answered 400 for the date: the date counts as absent, the rule is
    read back, and it is put again with the schedule it had; the answer is
    200 when the two calls answer. *)
Theorem update_unreadable_date_keeps_schedule
  env event request_body id date state query_result old_schedule new_state
  rule_response rule_arn s0 arn s1 s2 s3 l :
  load_body json_loads event = Ret request_body ->
  getitem event "httpMethod" = Ret (PStr "POST") ->
  getitem request_body "action" = Ret (PStr "update") ->
  read_body_parameter request_body "id" = Ret id ->
  validate_name (str id) = true ->
  read_body_parameter request_body "date" = Ret date ->
  truthy date = true ->
  validate_date date = None ->
  read_body_parameter request_body "state" = Ret state ->
  state_accepted state = true ->
  identity_resolved service env s0 arn s1 ->
  service (DescribeRule (str id)) s1 = (Ret query_result, s2) ->
  getitem query_result "ScheduleExpression" = Ret old_schedule ->
  applied_state state query_result = Ret new_state ->
  service (PutRule (str id) old_schedule new_state) s2 = (Ret rule_response, s3) ->
  getitem rule_response "RuleArn" = Ret (PStr rule_arn) ->
  handler json_loads service env event (World s0 l)
  = (Ret (Some (json_response (PStr (Msg.updated ++ rule_arn)) 200)),
     World s3 (l ++ [GetFunction ("alarmsExecuter-" ++ env)]
                 ++ [DescribeRule (str id)]
                 ++ [PutRule (str id) old_schedule new_state])%list).
Proof.
  intros Hbody Hmethod Haction Hid Hname Hdate Hgiven Hunreadable Hstate
    Haccepted Hident Hdescribe Hold Hnew Hput Harn.
  rewrite (handler_dispatch _ _ _ _ _ _ _ _ Hbody Hmethod Haction eq_refl Hident).
  cbn [eq_str String.eqb Ascii.eqb Bool.eqb].
  assert (Hsome : truthy date || truthy state = true).
  { rewrite Hgiven. reflexivity. }
  assert (Hsched : applied_schedule date query_result = Ret old_schedule).
  { unfold applied_schedule. rewrite Hgiven, Hunreadable. exact Hold. }
  rewrite (update_rule_applies _ _ _ _ _ _ _ _ _ _ _ _ _ Hid Hdate Hstate Hname
             Hsome Haccepted Hdescribe Hsched Hnew Hput Harn).
  rewrite <- !app_assoc. reflexivity.
Qed.

(** *** Delete *)

(** C4 (as the code has it).  On a delete request whose remove-targets
    call answers a false value, the rule-delete call is never issued, but the
    handler does not run off its end: the test that follows reads the local
    delete_rule_response, which no executed statement has assigned, and that
    raises inside the try block; the catch-all of the operation returns a
    response with status 400, whose message is the text of that error (a
    wording that depends on the version of the interpreter). *)
Theorem delete_silent_detach_answers_400
  env event request_body id s0 arn s1 remove_targets_response s2 l :
  load_body json_loads event = Ret request_body ->
  getitem event "httpMethod" = Ret (PStr "POST") ->
  getitem request_body "action" = Ret (PStr "delete") ->
  read_body_parameter request_body "id" = Ret id ->
  validate_name (str id) = true ->
  identity_resolved service env s0 arn s1 ->
  service (RemoveTargets (str id) [str id] true) s1
  = (Ret remove_targets_response, s2) ->
  truthy remove_targets_response = false ->
  (exists message,
      handler json_loads service env event (World s0 l)
      = (Ret (Some (json_response (PStr message) 400)),
         World s2 (l ++ [GetFunction ("alarmsExecuter-" ++ env)]
                     ++ [RemoveTargets (str id) [str id] true])%list))
  /\ existsb is_delete_call
       [GetFunction ("alarmsExecuter-" ++ env);
        RemoveTargets (str id) [str id] true] = false.
Proof.
  intros Hbody Hmethod Haction Hid Hname Hident Hdetach Hfalse.
  split; [| reflexivity].
  exists (exn_str (unbound_local "delete_rule_response")).
  rewrite (handler_dispatch _ _ _ _ _ _ _ _ Hbody Hmethod Haction eq_refl Hident).
  cbn [eq_str String.eqb Ascii.eqb Bool.eqb].
  rewrite (delete_rule_detaches _ _ _ Hid Hname).
  erewrite run_except.
  2:{ rewrite (run_invoke _ _ _ _ _ _ Hdetach), Hfalse, run_ret. reflexivity. }
  rewrite <- app_assoc. reflexivity.
Qed.

(** C6.  On a delete request with a well-formed id whose remove-targets
    call raises (as it does for an id that names no rule), the handler
    answers 400 with the text of the error; the lookup and the failed
    detachment are the only calls issued, so the rule-delete call is not
    among them, and the store is the one the failed call left. *)
Theorem delete_detach_raises_400
  env event request_body id s0 arn s1 e s2 l :
  load_body json_loads event = Ret request_body ->
  getitem event "httpMethod" = Ret (PStr "POST") ->
  getitem request_body "action" = Ret (PStr "delete") ->
  read_body_parameter request_body "id" = Ret id ->
  validate_name (str id) = true ->
  identity_resolved service env s0 arn s1 ->
  service (RemoveTargets (str id) [str id] true) s1 = (Raise e, s2) ->
  handler json_loads service env event (World s0 l)
  = (Ret (Some (json_response (PStr (exn_str e)) 400)),
     World s2 (l ++ [GetFunction ("alarmsExecuter-" ++ env)]
                 ++ [RemoveTargets (str id) [str id] true])%list)
  /\ existsb is_delete_call
       [GetFunction ("alarmsExecuter-" ++ env);
        RemoveTargets (str id) [str id] true] = false.
Proof.
  intros Hbody Hmethod Haction Hid Hname Hident Hdetach.
  split; [| reflexivity].
  rewrite (handler_dispatch _ _ _ _ _ _ _ _ Hbody Hmethod Haction eq_refl Hident).
  cbn [eq_str String.eqb Ascii.eqb Bool.eqb].
  rewrite (delete_rule_detaches _ _ _ Hid Hname).
  erewrite run_except.
  2:{ apply (run_invoke_raise _ _ _ _ _ _ Hdetach). }
  rewrite <- app_assoc. reflexivity.
Qed.

(** *** Query *)

(** C8.  A query whose id is empty or absent issues list-rules and no
    describe-rule call, and answers the listing with status 200; a query
    whose id is not empty and matches the name pattern issues describe-rule
    for that id and answers the description of that rule with status 200.
    (A call that raises is answered 400 with the text of the error.) *)
Theorem query_lists_or_describes env event request_body id s0 arn s1 l :
  load_body json_loads event = Ret request_body ->
  getitem event "httpMethod" = Ret (PStr "POST") ->
  getitem request_body "action" = Ret (PStr "query") ->
  read_body_parameter request_body "id" = Ret id ->
  identity_resolved service env s0 arn s1 ->
  (str id = "" ->
   forall r s2, service ListRules s1 = (r, s2) ->
     handler json_loads service env event (World s0 l)
     = (query_answer r,
        World s2 (l ++ [GetFunction ("alarmsExecuter-" ++ env)] ++ [ListRules])%list)
     /\ existsb is_describe_call
          [GetFunction ("alarmsExecuter-" ++ env); ListRules] = false)
  /\ (validate_name (str id) = true ->
      forall r s2, service (DescribeRule (str id)) s1 = (r, s2) ->
        handler json_loads service env event (World s0 l)
        = (query_answer r,
           World s2 (l ++ [GetFunction ("alarmsExecuter-" ++ env)]
                       ++ [DescribeRule (str id)])%list)).
Proof.
  intros Hbody Hmethod Haction Hid Hident.
  rewrite (handler_dispatch _ _ _ _ _ _ _ _ Hbody Hmethod Haction eq_refl Hident).
  cbn [eq_str String.eqb Ascii.eqb Bool.eqb].
  unfold query_rule. rewrite Hid, run_lift_ret. split.
  - intros Hempty r s2 Hcall. split; [| reflexivity].
    rewrite Hempty. cbn [truthy String.eqb negb].
    unfold try_except, bind, invoke. cbn [rules log]. rewrite Hcall.
    rewrite <- app_assoc. destruct r; reflexivity.
  - intros Hname r s2 Hcall.
    rewrite (nonempty_of_valid _ Hname), Hname. cbn [negb].
    unfold try_except, bind, invoke. cbn [rules log]. rewrite Hcall.
    rewrite <- app_assoc. destruct r; reflexivity.
Qed.

End Properties.

(** ** The properties on the sample platforms *)

(** The request of C1 on the sample scheduler, from an empty store. *)
Lemma create_job1_target_input_unquoted_witness :
  handler Sample.json_loads Sample.scheduler "dev"
    (Sample.post Sample.create_job1) (Sample.start [])
  = (Ret (Some (json_response
                  (PStr "New Rule created successfully: arn:aws:events:rule/job-1")
                  200)),
     World
       [ Sample.Rule "job-1" (PStr "cron(30 9 * * ? *)") (PStr "ENABLED")
           [ {| Arn := PStr "arn:aws:lambda:function:alarmsExecuter-dev";
                Id := "job-1"; Input := "{ " ++ quoted "id" ++ " : job-1 }" |} ] ]
       [ GetFunction "alarmsExecuter-dev";
         PutRule "job-1" (PStr "cron(30 9 * * ? *)") (PStr "ENABLED");
         PutTargets "job-1"
           [ {| Arn := PStr "arn:aws:lambda:function:alarmsExecuter-dev";
                Id := "job-1"; Input := "{ " ++ quoted "id" ++ " : job-1 }" |} ] ])
  /\ ~ same_json_text ("{ " ++ quoted "id" ++ " : job-1 }")
                      (Json.dumps (PDict [("id", PStr "job-1")])).
Proof.
  eapply (create_job1_target_input_unquoted Sample.json_loads Sample.scheduler "dev" (Sample.post Sample.create_job1)
           (Sample.object_value Sample.create_job1) []
           (PStr "arn:aws:lambda:function:alarmsExecuter-dev") []
           (PDict [("RuleArn", PStr "arn:aws:events:rule/job-1")])
           "arn:aws:events:rule/job-1" _ Sample.no_failed_entries _ []).
  - reflexivity.
  - reflexivity.
  - reflexivity.
  - reflexivity.
  - reflexivity.
  - eexists. eexists. split; [reflexivity | split; reflexivity].
  - reflexivity.
  - reflexivity.
  - reflexivity.
Defined.


Ltac resolved := eexists; eexists; split; [reflexivity | split; reflexivity].

(** A GET request with the body of the create request is answered 405. *)
Lemma non_post_parsable_body_405_witness :
  handler Sample.json_loads Sample.scheduler "dev"
    (Sample.event "GET" (Sample.object_text Sample.create_job1)) (Sample.start [])
  = (Ret (Some (json_response (PStr Msg.wrong_method) 405)), Sample.start []).
Proof.
  apply (non_post_parsable_body_405 Sample.json_loads Sample.scheduler "dev"
           (Sample.event "GET" (Sample.object_text Sample.create_job1))
           (Sample.object_value Sample.create_job1) (PStr "GET")).
  - reflexivity.
  - reflexivity.
  - reflexivity.
Defined.

(** C2 as stated fails: a GET request whose body is the text [not json] is
    answered 400, with the decoder's message, and not 405. *)
Lemma non_post_unparsable_body_400 :
  getitem (Sample.event "GET" "not json") "httpMethod" = Ret (PStr "GET")
  /\ eq_str (PStr "GET") "POST" = false
  /\ exists r,
       handler Sample.json_loads Sample.scheduler "dev"
         (Sample.event "GET" "not json") (Sample.start [])
       = (Ret (Some r), Sample.start [])
       /\ r = json_response (PStr "Expecting value: line 1 column 1 (char 0)") 400
       /\ statusCode r <> 405.
Proof.
  split; [reflexivity |]. split; [reflexivity |].
  eexists. split; [reflexivity |]. split; [reflexivity |].
  cbn. discriminate.
Qed.

(** The action purge: no response. *)
Lemma unrecognized_action_falls_through_witness :
  handler Sample.json_loads Sample.scheduler "dev"
    (Sample.post Sample.unknown_action) (Sample.start [])
  = (Ret None, World [] [GetFunction "alarmsExecuter-dev"]).
Proof.
  apply (unrecognized_action_falls_through Sample.json_loads Sample.scheduler "dev"
           (Sample.post Sample.unknown_action)
           (Sample.object_value Sample.unknown_action) (PStr "purge") []
           (PStr "arn:aws:lambda:function:alarmsExecuter-dev") [] []).
  - reflexivity.
  - reflexivity.
  - reflexivity.
  - reflexivity.
  - reflexivity.
  - resolved.
Defined.

(** A registry that does not know the executor: the error comes out of the
    handler. *)
Lemma identity_lookup_failure_propagates_witness :
  handler Sample.json_loads (Sample.scripted Sample.no_executor) "dev"
    (Sample.post Sample.create_job1) (Sample.start tt)
  = (Raise (PyExn ClientError
              "An error occurred (ResourceNotFoundException) when calling the GetFunction operation: Function not found: alarmsExecuter-dev"),
     World tt [GetFunction "alarmsExecuter-dev"]).
Proof.
  apply (identity_lookup_failure_propagates Sample.json_loads
           (Sample.scripted Sample.no_executor) "dev"
           (Sample.post Sample.create_job1)
           (Sample.object_value Sample.create_job1) (PStr "create") tt _ tt []).
  - reflexivity.
  - reflexivity.
  - reflexivity.
  - reflexivity.
  - reflexivity.
Defined.

(** Create with the id [job 1], and update with neither date nor state:
    400, the message of the constraint, and only the lookup in the log. *)
Lemma validation_failure_400_before_scheduling_witness :
  handler Sample.json_loads Sample.scheduler "dev"
    (Sample.post Sample.create_spaced) (Sample.start [])
  = (Ret (Some (json_response (PStr Msg.bad_name) 400)),
     World [] [GetFunction "alarmsExecuter-dev"])
  /\ handler Sample.json_loads Sample.scheduler "dev"
       (Sample.post Sample.update_nothing) (Sample.start Sample.one_rule)
     = (Ret (Some (json_response (PStr Msg.nothing_to_update) 400)),
        World Sample.one_rule [GetFunction "alarmsExecuter-dev"]).
Proof.
  split.
  - refine (proj1 (validation_failure_400_before_scheduling Sample.json_loads
                     Sample.scheduler "dev" (Sample.post Sample.create_spaced)
                     (Sample.object_value Sample.create_spaced) "create"
                     (PStr "job 1") (PStr "2030-01-01 09:30:00") (PStr "")
                     Msg.bad_name []
                     (PStr "arn:aws:lambda:function:alarmsExecuter-dev") [] []
                     _ _ _ _ _ _ _ _)).
    + reflexivity.
    + reflexivity.
    + reflexivity.
    + reflexivity.
    + reflexivity.
    + reflexivity.
    + resolved.
    + reflexivity.
  - refine (proj1 (validation_failure_400_before_scheduling Sample.json_loads
                     Sample.scheduler "dev" (Sample.post Sample.update_nothing)
                     (Sample.object_value Sample.update_nothing) "update"
                     (PStr "job-1") (PStr "") (PStr "")
                     Msg.nothing_to_update Sample.one_rule
                     (PStr "arn:aws:lambda:function:alarmsExecuter-dev")
                     Sample.one_rule []
                     _ _ _ _ _ _ _ _)).
    + reflexivity.
    + reflexivity.
    + reflexivity.
    + reflexivity.
    + reflexivity.
    + reflexivity.
    + resolved.
    + reflexivity.
Defined.

(** C5 as stated fails: when the id [job 1] of a create request is
    rejected, a call to an external service has already been issued, the
    identity lookup of the executor. *)
Lemma validation_after_identity_lookup :
  first_failed (checks "create" (PStr "job 1") (PStr "2030-01-01 09:30:00")
                  (PStr ""))
  = Some Msg.bad_name
  /\ exists w,
       handler Sample.json_loads Sample.scheduler "dev"
         (Sample.post Sample.create_spaced) (Sample.start [])
       = (Ret (Some (json_response (PStr Msg.bad_name) 400)), w)
       /\ log w = [GetFunction "alarmsExecuter-dev"]
       /\ log w <> log (Sample.start ([] : Sample.rule_store)).
Proof.
  split; [reflexivity |].
  eexists. split; [reflexivity |]. split; [reflexivity |].
  cbn. discriminate.
Qed.

(** C9 as stated fails: the lookup is not the one failure the handler lets
    through.  A POST request whose body is the JSON list of 1 and 2 fails on
    the read of the action, before any lookup is issued, and that failure is
    not turned into a 400 or 405 response either: the TypeError leaves the
    handler. *)
Lemma failure_before_lookup_raises_too :
  load_body (Scenario.decoder Scenario.numbers) (Scenario.post Scenario.numbers)
  = Ret (PList [PInt 1; PInt 2])
  /\ getitem (Scenario.post Scenario.numbers) "httpMethod" = Ret (PStr "POST")
  /\ handler (Scenario.decoder Scenario.numbers) Sample.scheduler "dev"
       (Scenario.post Scenario.numbers) (Sample.start [])
     = (Raise (PyExn TypeError "list indices must be integers or slices, not str"),
        World [] []).
Proof.
  split; [reflexivity |]. split; reflexivity.
Qed.

(** A scheduler that answers the detachment with an empty dict, which is
    false: the delete request is answered 400, not left without a response,
    and no rule-delete call is issued. *)
Lemma delete_silent_detach_answers_400_witness :
  (exists message,
      handler Sample.json_loads (Sample.scripted Sample.silent_detach) "dev"
        (Sample.post Sample.delete_job1) (Sample.start tt)
      = (Ret (Some (json_response (PStr message) 400)),
         World tt [GetFunction "alarmsExecuter-dev";
                   RemoveTargets "job-1" ["job-1"] true]))
  /\ existsb is_delete_call
       [GetFunction "alarmsExecuter-dev"; RemoveTargets "job-1" ["job-1"] true]
     = false.
Proof.
  apply (delete_silent_detach_answers_400 Sample.json_loads
           (Sample.scripted Sample.silent_detach) "dev"
           (Sample.post Sample.delete_job1)
           (Sample.object_value Sample.delete_job1) (PStr "job-1") tt
           (PStr "arn:aws:lambda:function:alarmsExecuter-dev") tt (PDict []) tt []).
  - reflexivity.
  - reflexivity.
  - reflexivity.
  - reflexivity.
  - reflexivity.
  - resolved.
  - reflexivity.
  - reflexivity.
Defined.

(** Delete of job-1 on a scheduler that holds no rule: the detachment
    raises, the answer is 400 with the error, the store is still empty. *)
Lemma delete_detach_raises_400_witness :
  handler Sample.json_loads Sample.scheduler "dev"
    (Sample.post Sample.delete_job1) (Sample.start [])
  = (Ret (Some (json_response
                  (PStr "An error occurred (ResourceNotFoundException) when calling the RemoveTargets operation: Rule job-1 does not exist.")
                  400)),
     World [] [GetFunction "alarmsExecuter-dev";
               RemoveTargets "job-1" ["job-1"] true])
  /\ existsb is_delete_call
       [GetFunction "alarmsExecuter-dev"; RemoveTargets "job-1" ["job-1"] true]
     = false.
Proof.
  apply (delete_detach_raises_400 Sample.json_loads Sample.scheduler "dev"
           (Sample.post Sample.delete_job1)
           (Sample.object_value Sample.delete_job1) (PStr "job-1") []
           (PStr "arn:aws:lambda:function:alarmsExecuter-dev") []
           (Sample.not_found "RemoveTargets" "job-1") [] []).
  - reflexivity.
  - reflexivity.
  - reflexivity.
  - reflexivity.
  - reflexivity.
  - resolved.
  - reflexivity.
Defined.

(** Update of job-1 with the state [enabled]: put-rule receives ENABLED,
    and the schedule read back. *)
Lemma update_state_normalized_witness :
  handler Sample.json_loads Sample.scheduler "dev"
    (Sample.post Sample.update_enabled) (Sample.start Sample.one_rule)
  = (Ret (Some (json_response
                  (PStr "Rule updated successfully: arn:aws:events:rule/job-1") 200)),
     World
       [ Sample.Rule "job-1" (PStr "cron(15 7 * * ? *)") (PStr "ENABLED")
           (Sample.rule_targets (hd (Sample.Rule "" PNone PNone []) Sample.one_rule)) ]
       [ GetFunction "alarmsExecuter-dev"; DescribeRule "job-1";
         PutRule "job-1" (PStr "cron(15 7 * * ? *)") (PStr "ENABLED") ]).
Proof.
  apply (update_state_normalized Sample.json_loads Sample.scheduler "dev"
           (Sample.post Sample.update_enabled)
           (Sample.object_value Sample.update_enabled) (PStr "job-1") (PStr "")
           "enabled"
           (Sample.describe (hd (Sample.Rule "" PNone PNone []) Sample.one_rule))
           (PStr "cron(15 7 * * ? *)")
           (PDict [("RuleArn", PStr "arn:aws:events:rule/job-1")])
           "arn:aws:events:rule/job-1" Sample.one_rule
           (PStr "arn:aws:lambda:function:alarmsExecuter-dev")
           Sample.one_rule Sample.one_rule _ []).
  - reflexivity.
  - reflexivity.
  - reflexivity.
  - reflexivity.
  - reflexivity.
  - reflexivity.
  - reflexivity.
  - left. reflexivity.
  - resolved.
  - reflexivity.
  - reflexivity.
  - reflexivity.
  - reflexivity.
Defined.

(** Update of job-1 with the date [not-a-date]: 200, and the rule is put
    again with the schedule and the state it had. *)
Lemma update_unreadable_date_keeps_schedule_witness :
  handler Sample.json_loads Sample.scheduler "dev"
    (Sample.post Sample.update_bad_date) (Sample.start Sample.one_rule)
  = (Ret (Some (json_response
                  (PStr "Rule updated successfully: arn:aws:events:rule/job-1") 200)),
     World Sample.one_rule
       [ GetFunction "alarmsExecuter-dev"; DescribeRule "job-1";
         PutRule "job-1" (PStr "cron(15 7 * * ? *)") (PStr "DISABLED") ]).
Proof.
  apply (update_unreadable_date_keeps_schedule Sample.json_loads Sample.scheduler
           "dev" (Sample.post Sample.update_bad_date)
           (Sample.object_value Sample.update_bad_date) (PStr "job-1")
           (PStr "not-a-date") (PStr "")
           (Sample.describe (hd (Sample.Rule "" PNone PNone []) Sample.one_rule))
           (PStr "cron(15 7 * * ? *)") (PStr "DISABLED")
           (PDict [("RuleArn", PStr "arn:aws:events:rule/job-1")])
           "arn:aws:events:rule/job-1" Sample.one_rule
           (PStr "arn:aws:lambda:function:alarmsExecuter-dev")
           Sample.one_rule Sample.one_rule Sample.one_rule []).
  - reflexivity.
  - reflexivity.
  - reflexivity.
  - reflexivity.
  - reflexivity.
  - reflexivity.
  - reflexivity.
  - reflexivity.
  - reflexivity.
  - reflexivity.
  - resolved.
  - reflexivity.
  - reflexivity.
  - reflexivity.
  - reflexivity.
  - reflexivity.
Defined.

(** A query with an empty id lists the rules; a query for job-1 describes
    that rule. *)
Lemma query_lists_or_describes_witness :
  (handler Sample.json_loads Sample.scheduler "dev"
     (Sample.post Sample.query_all) (Sample.start Sample.one_rule)
   = (Ret (Some (json_response
                   (PDict [("Rules", PList (map Sample.describe Sample.one_rule))])
                   200)),
      World Sample.one_rule [GetFunction "alarmsExecuter-dev"; ListRules])
   /\ existsb is_describe_call [GetFunction "alarmsExecuter-dev"; ListRules]
      = false)
  /\ handler Sample.json_loads Sample.scheduler "dev"
       (Sample.post Sample.query_job1) (Sample.start Sample.one_rule)
     = (Ret (Some (json_response
                     (Sample.describe
                        (hd (Sample.Rule "" PNone PNone []) Sample.one_rule))
                     200)),
        World Sample.one_rule
          [GetFunction "alarmsExecuter-dev"; DescribeRule "job-1"]).
Proof.
  split.
  - apply (proj1 (query_lists_or_describes Sample.json_loads Sample.scheduler
                    "dev" (Sample.post Sample.query_all)
                    (Sample.object_value Sample.query_all) (PStr "")
                    Sample.one_rule
                    (PStr "arn:aws:lambda:function:alarmsExecuter-dev")
                    Sample.one_rule []
                    eq_refl eq_refl eq_refl eq_refl
                    (ex_intro _ _ (ex_intro _ _
                       (conj eq_refl (conj eq_refl eq_refl)))))
             eq_refl
             (Ret (PDict [("Rules", PList (map Sample.describe Sample.one_rule))]))
             Sample.one_rule eq_refl).
  - apply (proj2 (query_lists_or_describes Sample.json_loads Sample.scheduler
                    "dev" (Sample.post Sample.query_job1)
                    (Sample.object_value Sample.query_job1) (PStr "job-1")
                    Sample.one_rule
                    (PStr "arn:aws:lambda:function:alarmsExecuter-dev")
                    Sample.one_rule []
                    eq_refl eq_refl eq_refl eq_refl
                    (ex_intro _ _ (ex_intro _ _
                       (conj eq_refl (conj eq_refl eq_refl)))))
             eq_refl
             (Ret (Sample.describe
                     (hd (Sample.Rule "" PNone PNone []) Sample.one_rule)))
             Sample.one_rule eq_refl).
Defined.

(** ** Further properties of the handler and its operations *)

Import Shape.

Section Coverage.

Context {store : Type}.
Variable json_loads : string -> pyres pyval.
Variable service : call -> store -> pyres pyval * store.

(** *** Before the dispatch *)

Lemma false_is_unrecognized action :
  truthy action = false -> recognized action = false.
Proof.
  intros H. destruct (recognized action) eqn:E; [| reflexivity].
  apply truthy_of_recognized in E. congruence.
Qed.

(** X1.  An event without a body, or whose body is not a text (the gateway
    passes None when no body was sent), is answered 400 with the text of the
    error raised while decoding, whatever the method of the request, and no
    call is issued. *)
Theorem body_absent_or_not_text_400 env d found w :
  assoc "body" d = found ->
  (forall text, found <> Some (PStr text)) ->
  handler json_loads service env (PDict d) w
  = (Ret (Some (json_response
                  (PStr match found with
                        | None => "'body'"
                        | Some v =>
                            "the JSON object must be str, bytes or bytearray, not "
                              ++ type_name v
                        end) 400)), w).
Proof.
  intros Hfound Hother. unfold handler, load_body, getitem. rewrite Hfound.
  destruct found as [v |]; [| reflexivity].
  destruct v; try reflexivity. elim (Hother s). reflexivity.
Qed.

(** X2.  A POST request whose body is a JSON object without the key action
    is answered 400 with the message on reading the action, and no call is
    issued. *)
Theorem missing_action_400 env event d w :
  load_body json_loads event = Ret (PDict d) ->
  getitem event "httpMethod" = Ret (PStr "POST") ->
  assoc "action" d = None ->
  handler json_loads service env event w
  = (Ret (Some (json_response (PStr Msg.no_action) 400)), w).
Proof.
  intros Hbody Hmethod Hnone. unfold handler.
  rewrite Hbody, Hmethod, run_lift_ret, eq_str_same. cbn [negb].
  unfold getitem. rewrite Hnone. reflexivity.
Qed.

(** X3.  A POST request whose action is a false value (the empty text,
    null, false, zero, an empty list or object) is answered 400 with the
    message listing the four actions, and no call is issued. *)
Theorem false_action_400 env event request_body action w :
  load_body json_loads event = Ret request_body ->
  getitem event "httpMethod" = Ret (PStr "POST") ->
  getitem request_body "action" = Ret action ->
  truthy action = false ->
  handler json_loads service env event w
  = (Ret (Some (json_response (PStr Msg.bad_action) 400)), w).
Proof.
  intros Hbody Hmethod Haction Hfalse. unfold handler.
  rewrite Hbody, Hmethod, run_lift_ret, eq_str_same. cbn [negb].
  rewrite Haction, Hfalse.
  pose proof (false_is_unrecognized _ Hfalse) as Hun. unfold recognized in Hun.
  repeat (apply orb_false_iff in Hun; destruct Hun as [Hun ?]).
  repeat match goal with H : eq_str _ _ = false |- _ => rewrite H; clear H end.
  reflexivity.
Qed.

(** X4.  A POST request whose body decodes to a JSON value that is not an
    object (a list, a text, a number, a boolean, null) is not answered: the
    read of the action raises TypeError, which only a KeyError clause guards,
    so the exception leaves the handler; no call is issued. *)
Theorem non_object_body_raises env event request_body w :
  load_body json_loads event = Ret request_body ->
  getitem event "httpMethod" = Ret (PStr "POST") ->
  (forall d, request_body <> PDict d) ->
  exists e,
    exn_cls e = TypeError
    /\ handler json_loads service env event w = (Raise e, w).
Proof.
  intros Hbody Hmethod Hother. unfold handler.
  rewrite Hbody, Hmethod, run_lift_ret, eq_str_same. cbn [negb].
  destruct request_body; try (eexists; split; [| reflexivity]; reflexivity).
  elim (Hother d). reflexivity.
Qed.

(** X5.  When the event has no httpMethod and its body decodes, the read of
    the method raises KeyError outside any try block: the exception leaves
    the handler. *)
Theorem missing_method_raises env d request_body w :
  load_body json_loads (PDict d) = Ret request_body ->
  assoc "httpMethod" d = None ->
  handler json_loads service env (PDict d) w
  = (Raise (key_error "httpMethod"), w).
Proof.
  intros Hbody Hnone. unfold handler. rewrite Hbody.
  unfold getitem. rewrite Hnone. reflexivity.
Qed.

(** X6.  When the identity lookup answers with a value that does not hold
    the function ARN under Configuration, FunctionArn, the failed read
    raises outside any try block: the exception leaves the handler, after
    the lookup and before any call to the scheduler. *)
Theorem lookup_answer_without_arn_raises
  env event request_body action response e s0 s1 l :
  load_body json_loads event = Ret request_body ->
  getitem event "httpMethod" = Ret (PStr "POST") ->
  getitem request_body "action" = Ret action ->
  truthy action = true ->
  service (GetFunction ("alarmsExecuter-" ++ env)) s0 = (Ret response, s1) ->
  (getitem response "Configuration" = Raise e
   \/ exists configuration,
        getitem response "Configuration" = Ret configuration
        /\ getitem configuration "FunctionArn" = Raise e) ->
  handler json_loads service env event (World s0 l)
  = (Raise e, World s1 (l ++ [GetFunction ("alarmsExecuter-" ++ env)])).
Proof.
  intros Hbody Hmethod Haction Htrue Hcall Hmissing. unfold handler.
  rewrite Hbody, Hmethod, run_lift_ret, eq_str_same. cbn [negb].
  rewrite Haction, Htrue. cbn [negb andb].
  rewrite (run_invoke service _ _ _ _ _ _ Hcall).
  destruct Hmissing as [Hconf | (configuration & Hconf & Harn)]; rewrite Hconf.
  - reflexivity.
  - rewrite run_lift_ret, Harn. reflexivity.
Qed.

Lemma reaches_dispatch env event action request_body s0 arn s1 l :
  reaches json_loads service env event action request_body s0 arn s1 ->
  action <> "" ->
  handler json_loads service env event (World s0 l)
  = (if String.eqb action "create" then create_rule service request_body arn
     else if String.eqb action "query" then query_rule service request_body
     else if String.eqb action "update" then update_rule service request_body
     else if String.eqb action "delete" then delete_rule service request_body
     else ret None)
      (World s1 (l ++ [GetFunction ("alarmsExecuter-" ++ env)])).
Proof.
  intros (Hbody & Hmethod & Haction & Hident) Hname.
  apply (handler_dispatch json_loads service _ _ _ _ _ _ _ _ Hbody Hmethod Haction);
    [| exact Hident].
  destruct action; [congruence | reflexivity].
Qed.

(** *** Create *)

Lemma create_rule_validated request_body arn id date d w :
  read_body_parameter request_body "id" = Ret id ->
  validate_name (str id) = true ->
  read_body_parameter request_body "date" = Ret date ->
  truthy date = true ->
  validate_date date = Some d ->
  create_rule service request_body arn w
  = try_except
      (new_rule_response <-
         invoke service (PutRule (str id) (PStr (cron_of d)) (PStr "ENABLED")) ;;
       created_rule_response <-
         invoke service
           (PutTargets (str id)
              [ {| Arn := arn; Id := str id; Input := target_input (str id) |} ]) ;;
       rule_arn <- lift (getitem new_rule_response "RuleArn") ;;
       message <- lift (concat_str Msg.created rule_arn) ;;
       respond message 200)%py
      on_exception w.
Proof.
  intros Hid Hname Hdate Hgiven Hreadable. unfold create_rule.
  rewrite Hid, run_lift_ret, Hdate, run_lift_ret.
  rewrite (nonempty_of_valid json_loads _ Hname), Hname, Hgiven, Hreadable. reflexivity.
Qed.

(** X7.  A create request with an id matching the name pattern and a date
    that reads under the format, on services that answer, puts the rule
    under that id with the cron schedule of the date's minute and hour and
    the state ENABLED, then attaches one target whose id is the rule's id,
    whose ARN is the executor's and whose input is built from the id, and
    answers 200 with the ARN of the rule. *)
Theorem create_rule_applies
  env event request_body id date d rule_response rule_arn targets_response
  s0 arn s1 s2 s3 l :
  reaches json_loads service env event "create" request_body s0 arn s1 ->
  read_body_parameter request_body "id" = Ret id ->
  validate_name (str id) = true ->
  read_body_parameter request_body "date" = Ret date ->
  truthy date = true ->
  validate_date date = Some d ->
  service (PutRule (str id) (PStr (cron_of d)) (PStr "ENABLED")) s1
  = (Ret rule_response, s2) ->
  getitem rule_response "RuleArn" = Ret (PStr rule_arn) ->
  service (PutTargets (str id)
             [ {| Arn := arn; Id := str id; Input := target_input (str id) |} ]) s2
  = (Ret targets_response, s3) ->
  handler json_loads service env event (World s0 l)
  = (Ret (Some (json_response (PStr (Msg.created ++ rule_arn)) 200)),
     World s3
       (l ++ [GetFunction ("alarmsExecuter-" ++ env);
              PutRule (str id) (PStr (cron_of d)) (PStr "ENABLED");
              PutTargets (str id)
                [ {| Arn := arn; Id := str id; Input := target_input (str id) |} ]])%list).
Proof.
  intros Hreach Hid Hname Hdate Hgiven Hreadable Hput Harn Htargets.
  rewrite (reaches_dispatch _ _ _ _ _ _ _ _ Hreach) by discriminate.
  cbn [String.eqb Ascii.eqb Bool.eqb].
  rewrite (create_rule_validated _ _ _ _ _ _ Hid Hname Hdate Hgiven Hreadable).
  erewrite run_try; [reflexivity |].
  rewrite (run_invoke service _ _ _ _ _ _ Hput).
  rewrite (run_invoke service _ _ _ _ _ _ Htargets).
  rewrite Harn, run_lift_ret. cbn [concat_str]. rewrite run_lift_ret.
  unfold respond, ret. rewrite <- !app_assoc. reflexivity.
Qed.

(** X8.  When the put-rule call of a valid create request raises, the
    answer is 400 with the text of the error and the put-targets call is
    never issued. *)
Theorem create_put_rule_raises_no_target
  env event request_body id date d e s0 arn s1 s2 l :
  reaches json_loads service env event "create" request_body s0 arn s1 ->
  read_body_parameter request_body "id" = Ret id ->
  validate_name (str id) = true ->
  read_body_parameter request_body "date" = Ret date ->
  truthy date = true ->
  validate_date date = Some d ->
  service (PutRule (str id) (PStr (cron_of d)) (PStr "ENABLED")) s1
  = (Raise e, s2) ->
  handler json_loads service env event (World s0 l)
  = (Ret (Some (json_response (PStr (exn_str e)) 400)),
     World s2
       (l ++ [GetFunction ("alarmsExecuter-" ++ env);
              PutRule (str id) (PStr (cron_of d)) (PStr "ENABLED")])%list).
Proof.
  intros Hreach Hid Hname Hdate Hgiven Hreadable Hput.
  rewrite (reaches_dispatch _ _ _ _ _ _ _ _ Hreach) by discriminate.
  cbn [String.eqb Ascii.eqb Bool.eqb].
  rewrite (create_rule_validated _ _ _ _ _ _ Hid Hname Hdate Hgiven Hreadable).
  erewrite run_except.
  2:{ apply (run_invoke_raise service _ _ _ _ _ _ Hput). }
  rewrite <- !app_assoc. reflexivity.
Qed.

(** X9.  Create is not undone on failure: when put-rule answers and the
    put-targets call raises, the answer is 400 with the text of the error,
    yet the rule has been put (the put-rule call is in the log, the store is
    the one the two calls left) and no call removes it. *)
Theorem create_put_targets_raises_rule_stays
  env event request_body id date d rule_response e s0 arn s1 s2 s3 l :
  reaches json_loads service env event "create" request_body s0 arn s1 ->
  read_body_parameter request_body "id" = Ret id ->
  validate_name (str id) = true ->
  read_body_parameter request_body "date" = Ret date ->
  truthy date = true ->
  validate_date date = Some d ->
  service (PutRule (str id) (PStr (cron_of d)) (PStr "ENABLED")) s1
  = (Ret rule_response, s2) ->
  service (PutTargets (str id)
             [ {| Arn := arn; Id := str id; Input := target_input (str id) |} ]) s2
  = (Raise e, s3) ->
  handler json_loads service env event (World s0 l)
  = (Ret (Some (json_response (PStr (exn_str e)) 400)),
     World s3
       (l ++ [GetFunction ("alarmsExecuter-" ++ env);
              PutRule (str id) (PStr (cron_of d)) (PStr "ENABLED");
              PutTargets (str id)
                [ {| Arn := arn; Id := str id; Input := target_input (str id) |} ]])%list).
Proof.
  intros Hreach Hid Hname Hdate Hgiven Hreadable Hput Htargets.
  rewrite (reaches_dispatch _ _ _ _ _ _ _ _ Hreach) by discriminate.
  cbn [String.eqb Ascii.eqb Bool.eqb].
  rewrite (create_rule_validated _ _ _ _ _ _ Hid Hname Hdate Hgiven Hreadable).
  erewrite run_except.
  2:{ rewrite (run_invoke service _ _ _ _ _ _ Hput).
      apply (run_invoke_raise service _ _ _ _ _ _ Htargets). }
  rewrite <- !app_assoc. reflexivity.
Qed.

(** *** Update *)

(** X10.  An update request with a valid id and a state that is true but
    not a text (a number, true, a non-empty list or object) is neither
    rejected nor applied: the call of the method upper on it raises
    AttributeError before the try block, and the exception leaves the
    handler; no call reaches the scheduler. *)
Theorem update_non_text_state_raises
  env event request_body id date state s0 arn s1 l :
  reaches json_loads service env event "update" request_body s0 arn s1 ->
  read_body_parameter request_body "id" = Ret id ->
  validate_name (str id) = true ->
  read_body_parameter request_body "date" = Ret date ->
  read_body_parameter request_body "state" = Ret state ->
  truthy state = true ->
  (forall text, state <> PStr text) ->
  handler json_loads service env event (World s0 l)
  = (Raise (PyExn AttributeError
              ("'" ++ type_name state ++ "' object has no attribute 'upper'")),
     World s1 (l ++ [GetFunction ("alarmsExecuter-" ++ env)])).
Proof.
  intros Hreach Hid Hname Hdate Hstate Htrue Hother.
  rewrite (reaches_dispatch _ _ _ _ _ _ _ _ Hreach) by discriminate.
  cbn [String.eqb Ascii.eqb Bool.eqb]. unfold update_rule.
  rewrite Hid, run_lift_ret, Hdate, run_lift_ret, Hstate, run_lift_ret.
  rewrite (nonempty_of_valid json_loads _ Hname), Hname, Htrue.
  rewrite andb_false_r. cbn [negb].
  destruct state; try reflexivity. elim (Hother s). reflexivity.
Qed.

(** X11.  Update never creates a rule: when the read-back of the rule
    raises (as for an id that names no rule), the answer is 400 with the text
    of the error and the put-rule call is never issued. *)
Theorem update_missing_rule_never_puts
  env event request_body id date state e s0 arn s1 s2 l :
  reaches json_loads service env event "update" request_body s0 arn s1 ->
  read_body_parameter request_body "id" = Ret id ->
  validate_name (str id) = true ->
  read_body_parameter request_body "date" = Ret date ->
  read_body_parameter request_body "state" = Ret state ->
  truthy date || truthy state = true ->
  state_accepted state = true ->
  service (DescribeRule (str id)) s1 = (Raise e, s2) ->
  handler json_loads service env event (World s0 l)
  = (Ret (Some (json_response (PStr (exn_str e)) 400)),
     World s2 (l ++ [GetFunction ("alarmsExecuter-" ++ env);
                     DescribeRule (str id)])%list).
Proof.
  intros Hreach Hid Hname Hdate Hstate Hgiven Haccepted Hdescribe.
  rewrite (reaches_dispatch _ _ _ _ _ _ _ _ Hreach) by discriminate.
  cbn [String.eqb Ascii.eqb Bool.eqb]. unfold update_rule.
  rewrite Hid, run_lift_ret, Hdate, run_lift_ret, Hstate, run_lift_ret.
  rewrite (nonempty_of_valid json_loads _ Hname), Hname. cbn [negb].
  rewrite <- negb_orb, Hgiven. cbn [negb].
  rewrite (state_check_passes _ Haccepted), run_ret.
  erewrite run_except.
  2:{ apply (run_invoke_raise service _ _ _ _ _ _ Hdescribe). }
  rewrite <- !app_assoc. reflexivity.
Qed.

(** X12.  An update request with a valid id and a date that reads under
    the format replaces the schedule: the rule is read back, then put again
    with the cron schedule of the date's minute and hour, whatever schedule
    it had, and with the given state in upper case or else the state read
    back; no target is attached or detached. *)
Theorem update_readable_date_replaces_schedule
  env event request_body id date d state query_result new_state rule_response
  rule_arn s0 arn s1 s2 s3 l :
  reaches json_loads service env event "update" request_body s0 arn s1 ->
  read_body_parameter request_body "id" = Ret id ->
  validate_name (str id) = true ->
  read_body_parameter request_body "date" = Ret date ->
  truthy date = true ->
  validate_date date = Some d ->
  read_body_parameter request_body "state" = Ret state ->
  state_accepted state = true ->
  service (DescribeRule (str id)) s1 = (Ret query_result, s2) ->
  applied_state state query_result = Ret new_state ->
  service (PutRule (str id) (PStr (cron_of d)) new_state) s2
  = (Ret rule_response, s3) ->
  getitem rule_response "RuleArn" = Ret (PStr rule_arn) ->
  handler json_loads service env event (World s0 l)
  = (Ret (Some (json_response (PStr (Msg.updated ++ rule_arn)) 200)),
     World s3 (l ++ [GetFunction ("alarmsExecuter-" ++ env);
                     DescribeRule (str id);
                     PutRule (str id) (PStr (cron_of d)) new_state])%list).
Proof.
  intros Hreach Hid Hname Hdate Hgiven Hreadable Hstate Haccepted Hdescribe
    Hnew Hput Harn.
  rewrite (reaches_dispatch _ _ _ _ _ _ _ _ Hreach) by discriminate.
  cbn [String.eqb Ascii.eqb Bool.eqb].
  assert (Hsome : truthy date || truthy state = true).
  { rewrite Hgiven. reflexivity. }
  assert (Hsched : applied_schedule date query_result = Ret (PStr (cron_of d))).
  { unfold applied_schedule. rewrite Hgiven, Hreadable. reflexivity. }
  rewrite (update_rule_applies json_loads service _ _ _ _ _ _ _ _ _ _ _ _ _ Hid Hdate Hstate
             Hname Hsome Haccepted Hdescribe Hsched Hnew Hput Harn).
  rewrite <- !app_assoc. reflexivity.
Qed.

(** *** Delete *)

(** X13.  A delete request with a valid id, on services that answer true
    values, detaches the target whose id is the rule's id and then deletes
    the rule, in that order and both with Force, and answers 200. *)
Theorem delete_detaches_then_deletes
  env event request_body id remove_targets_response delete_rule_response
  s0 arn s1 s2 s3 l :
  reaches json_loads service env event "delete" request_body s0 arn s1 ->
  read_body_parameter request_body "id" = Ret id ->
  validate_name (str id) = true ->
  service (RemoveTargets (str id) [str id] true) s1
  = (Ret remove_targets_response, s2) ->
  truthy remove_targets_response = true ->
  service (DeleteRule (str id) true) s2 = (Ret delete_rule_response, s3) ->
  truthy delete_rule_response = true ->
  handler json_loads service env event (World s0 l)
  = (Ret (Some (json_response (PStr Msg.deleted) 200)),
     World s3 (l ++ [GetFunction ("alarmsExecuter-" ++ env);
                     RemoveTargets (str id) [str id] true;
                     DeleteRule (str id) true])%list).
Proof.
  intros Hreach Hid Hname Hdetach Hdetached Hdelete Hdeleted.
  rewrite (reaches_dispatch _ _ _ _ _ _ _ _ Hreach) by discriminate.
  cbn [String.eqb Ascii.eqb Bool.eqb].
  rewrite (delete_rule_detaches json_loads service _ _ _ Hid Hname).
  erewrite run_try; [reflexivity |].
  rewrite (run_invoke service _ _ _ _ _ _ Hdetach), Hdetached.
  unfold bind at 1. rewrite (run_invoke service _ _ _ _ _ _ Hdelete).
  unfold ret at 1. rewrite Hdeleted.
  unfold respond, ret. rewrite <- !app_assoc. reflexivity.
Qed.

(** X14.  When the detachment answers a true value and the delete-rule call
    answers a false one (None, an empty object), the delete request gets no
    response at all: the rule-delete call was issued, the last test fails,
    and the handler runs off its end. *)
Theorem delete_false_answer_no_response
  env event request_body id remove_targets_response delete_rule_response
  s0 arn s1 s2 s3 l :
  reaches json_loads service env event "delete" request_body s0 arn s1 ->
  read_body_parameter request_body "id" = Ret id ->
  validate_name (str id) = true ->
  service (RemoveTargets (str id) [str id] true) s1
  = (Ret remove_targets_response, s2) ->
  truthy remove_targets_response = true ->
  service (DeleteRule (str id) true) s2 = (Ret delete_rule_response, s3) ->
  truthy delete_rule_response = false ->
  handler json_loads service env event (World s0 l)
  = (Ret None,
     World s3 (l ++ [GetFunction ("alarmsExecuter-" ++ env);
                     RemoveTargets (str id) [str id] true;
                     DeleteRule (str id) true])%list).
Proof.
  intros Hreach Hid Hname Hdetach Hdetached Hdelete Hdeleted.
  rewrite (reaches_dispatch _ _ _ _ _ _ _ _ Hreach) by discriminate.
  cbn [String.eqb Ascii.eqb Bool.eqb].
  rewrite (delete_rule_detaches json_loads service _ _ _ Hid Hname).
  erewrite run_try; [reflexivity |].
  rewrite (run_invoke service _ _ _ _ _ _ Hdetach), Hdetached.
  unfold bind at 1. rewrite (run_invoke service _ _ _ _ _ _ Hdelete).
  unfold ret at 1. rewrite Hdeleted.
  unfold ret. rewrite <- !app_assoc. reflexivity.
Qed.

(** X15.  Delete is not undone on failure: when the detachment answers a
    true value and the delete-rule call raises, the answer is 400 with the
    text of the error, after the target has been detached; nothing attaches
    it again. *)
Theorem delete_raises_after_detach
  env event request_body id remove_targets_response e s0 arn s1 s2 s3 l :
  reaches json_loads service env event "delete" request_body s0 arn s1 ->
  read_body_parameter request_body "id" = Ret id ->
  validate_name (str id) = true ->
  service (RemoveTargets (str id) [str id] true) s1
  = (Ret remove_targets_response, s2) ->
  truthy remove_targets_response = true ->
  service (DeleteRule (str id) true) s2 = (Raise e, s3) ->
  handler json_loads service env event (World s0 l)
  = (Ret (Some (json_response (PStr (exn_str e)) 400)),
     World s3 (l ++ [GetFunction ("alarmsExecuter-" ++ env);
                     RemoveTargets (str id) [str id] true;
                     DeleteRule (str id) true])%list).
Proof.
  intros Hreach Hid Hname Hdetach Hdetached Hdelete.
  rewrite (reaches_dispatch _ _ _ _ _ _ _ _ Hreach) by discriminate.
  cbn [String.eqb Ascii.eqb Bool.eqb].
  rewrite (delete_rule_detaches json_loads service _ _ _ Hid Hname).
  erewrite run_except.
  2:{ rewrite (run_invoke service _ _ _ _ _ _ Hdetach), Hdetached.
      unfold bind at 1. rewrite (run_invoke_raise service _ _ _ _ _ _ Hdelete).
      reflexivity. }
  rewrite <- !app_assoc. reflexivity.
Qed.

(** *** The calls an operation can make *)

Lemma answer_400 n message calls :
  answer_ok n (Ret (Some (json_response message 400))) calls.
Proof. split; [reflexivity | left; reflexivity]. Qed.

Lemma answer_200 n message calls :
  length calls = n ->
  answer_ok n (Ret (Some (json_response message 200))) calls.
Proof. intros H. split; [reflexivity | right; split; [reflexivity | exact H]]. Qed.

Ltac split_service :=
  match goal with
  | |- context [service ?c ?s] =>
      let r := fresh "r" in
      let s' := fresh "s" in
      destruct (service c s) as [r s'] eqn:?; destruct r
  end.

Ltac answered :=
  first [ apply answer_400 | apply answer_200; reflexivity | exact I ].

Ltac step :=
  match goal with
  | |- context [service ?c ?s] => split_service
  | |- context [match ?x with Ret _ => _ | Raise _ => _ end] => destruct x eqn:?
  | |- context [if ?b then _ else _] => destruct b eqn:?
  | |- context [match ?x with Some _ => _ | None => _ end] => destruct x eqn:?
  end;
  cbn [negb andb option_map fst snd rules log].

Ltac shaped :=
  first
    [ left; reflexivity
    | right; left; reflexivity
    | right; right; eexists; split; [eassumption | reflexivity]
    | right; eexists; eexists; split;
      [eassumption | first [left; reflexivity | right; reflexivity]]
    | right; eexists; split;
      [eassumption
      | first [left; reflexivity | right; reflexivity
              | right; eexists; eexists; reflexivity]] ].

Ltac close :=
  repeat match goal with
         | H : negb _ = false |- _ => apply negb_false_iff in H
         end;
  eexists; split;
  [ cbn [fst snd rules log]; rewrite <- ?app_assoc;
    first [reflexivity | symmetry; apply app_nil_r]
  | split; [shaped | cbn [fst snd]; answered] ].

Lemma query_rule_run request_body w :
  exists calls,
    log (snd (query_rule service request_body w)) = (log w ++ calls)%list
    /\ query_calls calls
    /\ answer_ok 1 (fst (query_rule service request_body w)) calls.
Proof.
  unfold query_rule, bind, lift, try_except, invoke, on_exception, respond, ret.
  repeat step; close.
Qed.

Lemma create_rule_run request_body arn w :
  exists calls,
    log (snd (create_rule service request_body arn w)) = (log w ++ calls)%list
    /\ create_calls arn calls
    /\ answer_ok 2 (fst (create_rule service request_body arn w)) calls.
Proof.
  unfold create_rule, bind, lift, try_except, invoke, on_exception, respond, ret.
  repeat step; close.
Qed.

Lemma update_rule_run request_body w :
  exists calls,
    log (snd (update_rule service request_body w)) = (log w ++ calls)%list
    /\ update_calls calls
    /\ answer_ok 2 (fst (update_rule service request_body w)) calls.
Proof.
  unfold update_rule, bind, lift, try_except, invoke, on_exception, respond, ret.
  repeat step; close.
Qed.

Lemma delete_rule_run request_body w :
  exists calls,
    log (snd (delete_rule service request_body w)) = (log w ++ calls)%list
    /\ delete_calls calls
    /\ answer_ok 2 (fst (delete_rule service request_body w)) calls.
Proof.
  unfold delete_rule, bind, lift, try_except, invoke, on_exception, respond,
    raise, ret.
  repeat step; close.
Qed.

Lemma well_named_create arn calls :
  create_calls arn calls ->
  (length calls <= 2)%nat /\ forallb well_named calls = true.
Proof.
  intros [-> | (name & d & Hname & [-> | ->])]; cbn [length forallb well_named];
    rewrite ?Hname, ?String.eqb_refl; split; auto.
Qed.

Lemma well_named_query calls :
  query_calls calls ->
  (length calls <= 2)%nat /\ forallb well_named calls = true.
Proof.
  intros [-> | [-> | (name & Hname & ->)]]; cbn [length forallb well_named];
    rewrite ?Hname; split; auto.
Qed.

Lemma well_named_update calls :
  update_calls calls ->
  (length calls <= 2)%nat /\ forallb well_named calls = true.
Proof.
  intros [-> | (name & Hname & [-> | (schedule & state & ->)])];
    cbn [length forallb well_named]; rewrite ?Hname; split; auto.
Qed.

Lemma well_named_delete calls :
  delete_calls calls ->
  (length calls <= 2)%nat /\ forallb well_named calls = true.
Proof.
  intros [-> | (name & Hname & [-> | ->])]; cbn [length forallb well_named];
    rewrite ?Hname, ?String.eqb_refl; split; auto.
Qed.

Lemma answer_after_lookup n out c calls :
  (1 <= n)%nat -> answer_ok n out calls -> handler_answer out (c :: calls).
Proof.
  intros Hn. unfold answer_ok, handler_answer.
  destruct out as [[r |] | e]; auto.
  intros (Hheaders & [H400 | (H200 & Hlen)]); split; auto.
  right. right. split; [exact H200 |]. cbn [length]. lia.
Qed.


Lemma dispatched_run env n (m : M store (option response)) w1 (w : world store)
  out w' :
  (1 <= n)%nat ->
  log w1 = (log w ++ [GetFunction ("alarmsExecuter-" ++ env)])%list ->
  m w1 = (out, w') ->
  (exists calls,
      log (snd (m w1)) = (log w1 ++ calls)%list
      /\ ((length calls <= 2)%nat /\ forallb well_named calls = true)
      /\ answer_ok n (fst (m w1)) calls) ->
  exists calls,
    log w' = (log w ++ calls)%list
    /\ handler_calls env calls /\ handler_answer out calls.
Proof.
  intros Hn Hw1 Hrun (calls & Hlog & (Hlen & Hnamed) & Hanswer).
  rewrite Hrun in Hlog, Hanswer. cbn [fst snd] in Hlog, Hanswer.
  exists (GetFunction ("alarmsExecuter-" ++ env) :: calls).
  split; [rewrite Hlog, Hw1, <- app_assoc; reflexivity |].
  split; [right; exists calls; auto |].
  apply (answer_after_lookup n); assumption.
Qed.

Ltac early H :=
  injection H as <- <-; exists []; rewrite app_nil_r;
  split; [reflexivity |]; split; [left; reflexivity |];
  first [ exact I
        | split; [reflexivity |]; first [ left; split; reflexivity
                                        | right; left; reflexivity ] ].

Ltac after_lookup H :=
  injection H as <- <-; eexists; split; [reflexivity |]; split; [| exact I];
  right; exists []; repeat split; auto.

Lemma handler_run env event w out w' :
  handler json_loads service env event w = (out, w') ->
  exists calls,
    log w' = (log w ++ calls)%list
    /\ handler_calls env calls /\ handler_answer out calls.
Proof.
  unfold handler. intros H.
  destruct (load_body json_loads event) as [request_body | e]; [| early H].
  unfold bind at 1, lift at 1 in H.
  destruct (getitem event "httpMethod") as [method | e]; [| early H].
  destruct (negb (eq_str method "POST")); [early H |].
  destruct (getitem request_body "action") as [action | e].
  2:{ destruct (exn_cls e); early H. }
  match type of H with context [if ?b then _ else _] => destruct b end;
    [early H |].
  unfold bind at 1, invoke at 1 in H.
  destruct (service (GetFunction ("alarmsExecuter-" ++ env)) (rules w))
    as [[response | e] s] eqn:Hcall; [| after_lookup H].
  unfold bind at 1, lift at 1 in H.
  destruct (getitem response "Configuration") as [configuration | e];
    [| after_lookup H].
  unfold bind at 1, lift at 1 in H.
  destruct (getitem configuration "FunctionArn") as [arn | e]; [| after_lookup H].
  destruct (eq_str action "create").
  { refine (dispatched_run env 2%nat _
              (World s (log w ++ [GetFunction ("alarmsExecuter-" ++ env)])) w
              _ _ _ eq_refl H _); [lia |].
    destruct (create_rule_run request_body arn
                (World s (log w ++ [GetFunction ("alarmsExecuter-" ++ env)])))
      as (calls & Hlog & Hshape & Hanswer).
    exists calls.
    split; [exact Hlog | split; [| exact Hanswer]].
    apply well_named_create in Hshape. exact Hshape. }
  destruct (eq_str action "query").
  { refine (dispatched_run env 1%nat _
              (World s (log w ++ [GetFunction ("alarmsExecuter-" ++ env)])) w
              _ _ _ eq_refl H _); [lia |].
    destruct (query_rule_run request_body
                (World s (log w ++ [GetFunction ("alarmsExecuter-" ++ env)])))
      as (calls & Hlog & Hshape & Hanswer).
    exists calls.
    split; [exact Hlog | split; [| exact Hanswer]].
    apply well_named_query in Hshape. exact Hshape. }
  destruct (eq_str action "update").
  { refine (dispatched_run env 2%nat _
              (World s (log w ++ [GetFunction ("alarmsExecuter-" ++ env)])) w
              _ _ _ eq_refl H _); [lia |].
    destruct (update_rule_run request_body
                (World s (log w ++ [GetFunction ("alarmsExecuter-" ++ env)])))
      as (calls & Hlog & Hshape & Hanswer).
    exists calls.
    split; [exact Hlog | split; [| exact Hanswer]].
    apply well_named_update in Hshape. exact Hshape. }
  destruct (eq_str action "delete").
  { refine (dispatched_run env 2%nat _
              (World s (log w ++ [GetFunction ("alarmsExecuter-" ++ env)])) w
              _ _ _ eq_refl H _); [lia |].
    destruct (delete_rule_run request_body
                (World s (log w ++ [GetFunction ("alarmsExecuter-" ++ env)])))
      as (calls & Hlog & Hshape & Hanswer).
    exists calls.
    split; [exact Hlog | split; [| exact Hanswer]].
    apply well_named_delete in Hshape. exact Hshape. }
  after_lookup H.
Qed.
(** X16.  Whatever the request and whatever the services answer, a query
    issues no call, or list-rules alone, or one describe-rule for a name that
    matches the pattern: it only reads. *)
Theorem query_rule_reads_only request_body w :
  exists calls,
    log (snd (query_rule service request_body w)) = (log w ++ calls)%list
    /\ query_calls calls
    /\ forallb reads_only calls = true.
Proof.
  destruct (query_rule_run request_body w) as (calls & Hlog & Hshape & _).
  exists calls. split; [exact Hlog |]. split; [exact Hshape |].
  destruct Hshape as [-> | [-> | (name & _ & ->)]]; reflexivity.
Qed.

(** X17.  Whatever the request and whatever the services answer, a create
    issues no call, or put-rule alone, or put-rule followed by put-targets.
    When it issues a call, the id and the date of the request passed the
    checks: the name is the text of the id and matches the pattern, the date
    was read under the format, and the rule is put with the cron schedule of
    that date's minute and hour and the state ENABLED.  Put-rule is the only
    call exactly when it raised; put-targets is issued exactly when put-rule
    answered, right after it, for the same name, with one target whose id is
    that name. *)
Theorem create_rule_puts_then_attaches request_body arn w :
  exists calls,
    log (snd (create_rule service request_body arn w)) = (log w ++ calls)%list
    /\ (calls = []
        \/ exists id date d,
             read_body_parameter request_body "id" = Ret id
             /\ read_body_parameter request_body "date" = Ret date
             /\ validate_name (str id) = true
             /\ validate_date date = Some d
             /\ ((calls = [PutRule (str id) (PStr (cron_of d)) (PStr "ENABLED")]
                  /\ exists e s,
                       service (PutRule (str id) (PStr (cron_of d)) (PStr "ENABLED"))
                         (rules w)
                       = (Raise e, s))
                 \/ (calls = [PutRule (str id) (PStr (cron_of d)) (PStr "ENABLED");
                              PutTargets (str id)
                                [ {| Arn := arn; Id := str id;
                                     Input := target_input (str id) |} ]]
                     /\ exists rule_response s,
                          service
                            (PutRule (str id) (PStr (cron_of d)) (PStr "ENABLED"))
                            (rules w)
                          = (Ret rule_response, s)))).
Proof.
  unfold create_rule, bind, lift, try_except, invoke, on_exception, respond, ret.
  destruct (read_body_parameter request_body "id") as [id | e] eqn:Hid.
  2:{ exists []. cbn [fst snd]. rewrite app_nil_r. auto. }
  destruct (read_body_parameter request_body "date") as [date | e] eqn:Hdate.
  2:{ exists []. cbn [fst snd]. rewrite app_nil_r. auto. }
  destruct (truthy (PStr (str id))); cbn [negb].
  2:{ exists []. cbn [fst snd]. rewrite app_nil_r. auto. }
  destruct (truthy date); cbn [negb].
  2:{ exists []. cbn [fst snd]. rewrite app_nil_r. auto. }
  destruct (validate_name (str id)) eqn:Hname; cbn [negb].
  2:{ exists []. cbn [fst snd]. rewrite app_nil_r. auto. }
  destruct (validate_date date) as [d |] eqn:Hreadable.
  2:{ exists []. cbn [fst snd]. rewrite app_nil_r. auto. }
  destruct (service (PutRule (str id) (PStr (cron_of d)) (PStr "ENABLED")) (rules w))
    as [[rule_response | e] s] eqn:Hput.
  2:{ exists [PutRule (str id) (PStr (cron_of d)) (PStr "ENABLED")].
      cbn [fst snd rules log]. split; [reflexivity |].
      right. exists id, date, d. repeat split; auto.
      left. split; [reflexivity |]. exists e, s. exact Hput. }
  exists [PutRule (str id) (PStr (cron_of d)) (PStr "ENABLED");
          PutTargets (str id)
            [ {| Arn := arn; Id := str id; Input := target_input (str id) |} ]].
  split.
  - cbn [rules log].
    destruct (service _ s) as [[targets_response | e] s'];
      [ destruct (getitem rule_response "RuleArn") as [rule_arn | e];
        [ destruct (concat_str Msg.created rule_arn) |] |];
      cbn [fst snd rules log]; rewrite <- app_assoc; reflexivity.
  - right. exists id, date, d. repeat split; auto.
    right. split; [reflexivity |]. exists rule_response, s. exact Hput.
Qed.

(** X18.  Whatever the request and whatever the services answer, an update
    issues no call, or describe-rule alone, or describe-rule followed by
    put-rule for the same name: it never puts a rule it has not read back,
    and it never attaches or detaches a target nor deletes a rule. *)
Theorem update_rule_never_touches_targets request_body w :
  exists calls,
    log (snd (update_rule service request_body w)) = (log w ++ calls)%list
    /\ update_calls calls
    /\ existsb touches_targets_or_deletes calls = false.
Proof.
  destruct (update_rule_run request_body w) as (calls & Hlog & Hshape & _).
  exists calls. split; [exact Hlog |]. split; [exact Hshape |].
  destruct Hshape as [-> | (name & _ & [-> | (schedule & state & ->)])];
    reflexivity.
Qed.

(** X19.  Whatever the request and whatever the services answer, a delete
    issues no call, or remove-targets alone, or remove-targets followed by
    delete-rule: the rule is never deleted before its target was detached,
    both calls are forced, and the only target id detached is the name of
    the rule. *)
Theorem delete_rule_detaches_first request_body w :
  exists calls,
    log (snd (delete_rule service request_body w)) = (log w ++ calls)%list
    /\ delete_calls calls.
Proof.
  destruct (delete_rule_run request_body w) as (calls & Hlog & Hshape & _).
  exists calls. auto.
Qed.

(** *** The handler as a whole *)

(** X20.  Whatever the event and whatever the services answer, the handler
    issues no call at all, or the identity lookup of the executor followed by
    at most two calls to the scheduler; every call to the scheduler names its
    rule by a text that matches the name pattern (and its targets by that
    same text), so no call is ever issued for an id that fails validation. *)
Theorem handler_call_discipline env event w :
  exists calls,
    log (snd (handler json_loads service env event w)) = (log w ++ calls)%list
    /\ handler_calls env calls.
Proof.
  destruct (handler json_loads service env event w) as [out w'] eqn:Hrun.
  destruct (handler_run _ _ _ _ _ Hrun) as (calls & Hlog & Hshape & _).
  exists calls. auto.
Qed.

(** X21.  Every response of the handler carries the three CORS headers and
    one of the status codes 200, 400, 405; 405 is only answered when no call
    was issued, and 200 only after the identity lookup and at least one call
    to the scheduler. *)
Theorem handler_status_codes env event w r w' :
  handler json_loads service env event w = (Ret (Some r), w') ->
  headers r = cors_headers
  /\ exists calls,
       log w' = (log w ++ calls)%list
       /\ ((statusCode r = 405 /\ calls = [])
           \/ statusCode r = 400
           \/ (statusCode r = 200 /\ (2 <= length calls)%nat)).
Proof.
  intros Hrun.
  destruct (handler_run _ _ _ _ _ Hrun) as (calls & Hlog & _ & Hheaders & Hstatus).
  split; [exact Hheaders |]. exists calls. auto.
Qed.

End Coverage.

(** ** Dates, bodies and ids *)

Import Strptime.

(** *** What [strptime] accepts *)

Lemma in_seq {A B} (m : matcher A) (k : A -> matcher B) s x :
  In x (seq m k s) -> exists v r, In (v, r) (m s) /\ In x (k v r).
Proof.
  unfold seq. intros H. apply in_flat_map in H. destruct H as ([v r] & Hin & Hx).
  exists v, r. auto.
Qed.

Lemma in_alt {A} (m1 m2 : matcher A) s x :
  In x (alt m1 m2 s) -> In x (m1 s) \/ In x (m2 s).
Proof. unfold alt. apply in_app_or. Qed.

Lemma in_sat p s c r : In (c, r) (sat p s) -> p c = true.
Proof.
  unfold sat. destruct s as [| c0 r0]; [intros [] |].
  destruct (p c0) eqn:Hp; [| intros []].
  intros [H | []]. injection H as <- <-. exact Hp.
Qed.

Lemma digit_val_range c : is_digit c = true -> 0 <= digit_val c <= 9.
Proof.
  unfold is_digit, in_range, digit_val. generalize (code c). intros n H.
  apply andb_true_iff in H. destruct H as [H1 H2].
  apply N.leb_le in H1. apply N.leb_le in H2. lia.
Qed.

Lemma in_dig lo hi s v r :
  In (v, r) (dig lo hi s) -> lo <= v <= hi /\ 0 <= v <= 9.
Proof.
  unfold dig. intros H. apply in_seq in H. destruct H as (c & r0 & Hc & Hv).
  apply in_sat in Hc. destruct Hv as [Hv | []]. apply pair_equal_spec in Hv. destruct Hv as [<- <-].
  apply andb_true_iff in Hc. destruct Hc as [Hc Hhi].
  apply andb_true_iff in Hc. destruct Hc as [Hd Hlo].
  apply digit_val_range in Hd. apply Z.leb_le in Hlo. apply Z.leb_le in Hhi. tauto.
Qed.

Lemma in_two a b c d s v r :
  In (v, r) (two a b c d s) ->
  exists x y, v = 10 * x + y /\ a <= x <= b /\ c <= y <= d
              /\ 0 <= x <= 9 /\ 0 <= y <= 9.
Proof.
  unfold two. intros H. apply in_seq in H. destruct H as (x & r0 & Hx & H).
  apply in_seq in H. destruct H as (y & r1 & Hy & H).
  destruct H as [H | []]. apply pair_equal_spec in H. destruct H as [<- <-].
  apply in_dig in Hx. apply in_dig in Hy. exists x, y. repeat split; lia.
Qed.

Ltac invert_alts H :=
  repeat (apply in_alt in H; destruct H as [H | H]);
  try (apply in_two in H; destruct H as (?x & ?y & -> & ? & ? & ? & ?));
  try (apply in_dig in H).

Lemma in_dir_m s v r : In (v, r) (dir_m s) -> 1 <= v <= 12.
Proof. unfold dir_m. intros H. invert_alts H; lia. Qed.

Lemma in_dir_d s v r : In (v, r) (dir_d s) -> 1 <= v <= 31.
Proof.
  unfold dir_d. intros H. invert_alts H; try lia.
  apply in_seq in H. destruct H as (c & r0 & _ & H). apply in_dig in H. lia.
Qed.

Lemma in_dir_H s v r : In (v, r) (dir_H s) -> 0 <= v <= 23.
Proof. unfold dir_H. intros H. invert_alts H; lia. Qed.

Lemma in_dir_M s v r : In (v, r) (dir_M s) -> 0 <= v <= 59.
Proof. unfold dir_M. intros H. invert_alts H; lia. Qed.

Lemma in_dir_S s v r : In (v, r) (dir_S s) -> 0 <= v <= 61.
Proof. unfold dir_S. intros H. invert_alts H; lia. Qed.

Lemma in_dir_Y s v r : In (v, r) (dir_Y s) -> 0 <= v <= 9999.
Proof.
  unfold dir_Y. intros H.
  apply in_seq in H. destruct H as (a & r0 & Ha & H).
  apply in_seq in H. destruct H as (b & r1 & Hb & H).
  apply in_seq in H. destruct H as (c & r2 & Hc & H).
  apply in_seq in H. destruct H as (d & r3 & Hd & H).
  destruct H as [H | []]. apply pair_equal_spec in H. destruct H as [<- <-].
  apply in_dig in Ha. apply in_dig in Hb. apply in_dig in Hc. apply in_dig in Hd. lia.
Qed.

Lemma in_format_regex s d r :
  In (d, r) (format_regex s) ->
  0 <= year d <= 9999 /\ 1 <= month d <= 12 /\ 1 <= day d <= 31
  /\ 0 <= hour d <= 23 /\ 0 <= minute d <= 59 /\ 0 <= second d <= 61.
Proof.
  unfold format_regex. intros H.
  apply in_seq in H. destruct H as (y & r0 & Hy & H).
  apply in_seq in H. destruct H as (? & r1 & _ & H).
  apply in_seq in H. destruct H as (m & r2 & Hm & H).
  apply in_seq in H. destruct H as (? & r3 & _ & H).
  apply in_seq in H. destruct H as (dd & r4 & Hd & H).
  apply in_seq in H. destruct H as (? & r5 & _ & H).
  apply in_seq in H. destruct H as (h & r6 & Hh & H).
  apply in_seq in H. destruct H as (? & r7 & _ & H).
  apply in_seq in H. destruct H as (mi & r8 & Hmi & H).
  apply in_seq in H. destruct H as (? & r9 & _ & H).
  apply in_seq in H. destruct H as (sec & r10 & Hsec & H).
  destruct H as [H | []]. apply pair_equal_spec in H. destruct H as [<- <-]. cbn [year month day hour minute second].
  apply in_dir_Y in Hy. apply in_dir_m in Hm. apply in_dir_d in Hd.
  apply in_dir_H in Hh. apply in_dir_M in Hmi. apply in_dir_S in Hsec.
  lia.
Qed.

(** X22.  Whatever text [strptime] accepts, the fields it yields are those of
    a calendar date and a time of day: year 1 to 9999, month 1 to 12, a day
    that exists in that month of that year, hour 0 to 23, minute 0 to 59,
    second 0 to 59.  So the minute and hour written into a cron expression
    are always within 0 to 59 and 0 to 23. *)
Theorem strptime_fields_in_calendar s d :
  strptime s = Some d -> in_calendar d.
Proof.
  unfold strptime. intros H.
  destruct (format_regex s) as [| [d0 rest] tail] eqn:Hmatch; [discriminate |].
  destruct rest; [| discriminate].
  destruct (valid d0) eqn:Hvalid; [| discriminate].
  injection H as <-.
  assert (Hin : In (d0, "") (format_regex s)) by (rewrite Hmatch; left; reflexivity).
  apply in_format_regex in Hin.
  unfold valid in Hvalid.
  apply andb_true_iff in Hvalid. destruct Hvalid as [Hvalid Hsec].
  apply andb_true_iff in Hvalid. destruct Hvalid as [Hyear Hday].
  apply Z.leb_le in Hyear, Hday, Hsec.
  unfold in_calendar. lia.
Qed.

Lemma first_seq {A B} (m : matcher A) (k : A -> matcher B) s v r x :
  first_match (m s) (v, r) -> first_match (k v r) x ->
  first_match (seq m k s) x.
Proof.
  intros (t & Hm) (t' & Hk). unfold seq. rewrite Hm. cbn [flat_map fst snd].
  rewrite Hk. eexists. reflexivity.
Qed.

Lemma first_alt_left {A} (m1 m2 : matcher A) s x :
  first_match (m1 s) x -> first_match (alt m1 m2 s) x.
Proof. intros (t & H). unfold alt. rewrite H. eexists. reflexivity. Qed.

Lemma first_alt_right {A} (m1 m2 : matcher A) s x :
  m1 s = [] -> first_match (m2 s) x -> first_match (alt m1 m2 s) x.
Proof. intros H1 (t & H). unfold alt. rewrite H1, H. eexists. reflexivity. Qed.

Lemma digit_cases k : 0 <= k <= 9 ->
  k = 0 \/ k = 1 \/ k = 2 \/ k = 3 \/ k = 4 \/ k = 5 \/ k = 6 \/ k = 7
  \/ k = 8 \/ k = 9.
Proof. lia. Qed.

Lemma digit_char_spec k :
  0 <= k <= 9 ->
  is_digit (digit_char k) = true /\ digit_val (digit_char k) = k
  /\ is_space (digit_char k) = false.
Proof.
  intros H. apply digit_cases in H.
  repeat (destruct H as [-> | H]; [repeat split; reflexivity |]).
  subst k. repeat split; reflexivity.
Qed.

Lemma dig_digit lo hi k rest :
  0 <= k <= 9 ->
  dig lo hi (String (digit_char k) rest)
  = if (lo <=? k) && (k <=? hi) then [(k, rest)] else [].
Proof.
  intros H. destruct (digit_char_spec k H) as (Hd & Hv & _).
  unfold dig, seq, sat, pure. rewrite Hd, Hv. cbn [andb].
  destruct ((lo <=? k) && (k <=? hi)); cbn [flat_map fst snd app];
    rewrite ?Hv; reflexivity.
Qed.

Lemma two_digits a b c d x y rest :
  0 <= x <= 9 -> 0 <= y <= 9 ->
  two a b c d (String (digit_char x) (String (digit_char y) rest))
  = if (a <=? x) && (x <=? b) && ((c <=? y) && (y <=? d))
    then [(10 * x + y, rest)] else [].
Proof.
  intros Hx Hy. unfold two, seq at 1. rewrite (dig_digit _ _ _ _ Hx).
  destruct ((a <=? x) && (x <=? b)); [| reflexivity].
  cbn [flat_map fst snd andb]. unfold seq. rewrite (dig_digit _ _ _ _ Hy).
  destruct ((c <=? y) && (y <=? d)); reflexivity.
Qed.

Ltac dlia := Z.to_euclidean_division_equations; lia.
Ltac leb_true := repeat (apply andb_true_iff; split); apply Z.leb_le; dlia.
Ltac two_hit :=
  rewrite two_digits by dlia;
  match goal with
  | |- first_match (if ?b then _ else _) _ =>
      replace b with true by (symmetry; leb_true)
  end;
  exists []; f_equal; f_equal; dlia.
Ltac two_miss :=
  rewrite two_digits by dlia;
  match goal with
  | |- (if ?b then _ else _) = [] =>
      destruct b eqn:Hb; [| reflexivity];
      exfalso; repeat (apply andb_true_iff in Hb; destruct Hb as [Hb ?]);
      repeat match goal with H : (_ <=? _) = true |- _ => apply Z.leb_le in H end;
      dlia
  end.

Lemma first_dir_H n rest :
  0 <= n <= 23 -> first_match (dir_H (pad2 n rest)) (n, rest).
Proof.
  intros H. unfold dir_H, pad2.
  destruct (Z.eq_dec (n / 10) 2) as [E | E].
  - apply first_alt_left. two_hit.
  - apply first_alt_right; [two_miss |]. apply first_alt_left. two_hit.
Qed.

Lemma first_dir_m n rest :
  1 <= n <= 12 -> first_match (dir_m (pad2 n rest)) (n, rest).
Proof.
  intros H. unfold dir_m, pad2.
  destruct (Z.eq_dec (n / 10) 1) as [E | E].
  - apply first_alt_left. two_hit.
  - apply first_alt_right; [two_miss |]. apply first_alt_left. two_hit.
Qed.

Lemma first_dir_d n rest :
  1 <= n <= 31 -> first_match (dir_d (pad2 n rest)) (n, rest).
Proof.
  intros H. unfold dir_d, pad2.
  destruct (Z.eq_dec (n / 10) 3) as [E | E].
  - apply first_alt_left. two_hit.
  - apply first_alt_right; [two_miss |].
    destruct (Z.eq_dec (n / 10) 0) as [E0 | E0].
    + apply first_alt_right; [two_miss |]. apply first_alt_left. two_hit.
    + apply first_alt_left. two_hit.
Qed.

Lemma first_dir_M n rest :
  0 <= n <= 59 -> first_match (dir_M (pad2 n rest)) (n, rest).
Proof. intros H. unfold dir_M, pad2. apply first_alt_left. two_hit. Qed.

Lemma first_dir_S n rest :
  0 <= n <= 59 -> first_match (dir_S (pad2 n rest)) (n, rest).
Proof.
  intros H. unfold dir_S, pad2.
  apply first_alt_right; [two_miss |]. apply first_alt_left. two_hit.
Qed.

Lemma first_dig_any k rest :
  0 <= k <= 9 -> first_match (dig 0 9 (String (digit_char k) rest)) (k, rest).
Proof.
  intros H. rewrite dig_digit by dlia.
  replace ((0 <=? k) && (k <=? 9)) with true by (symmetry; leb_true).
  eexists. reflexivity.
Qed.

Lemma first_dir_Y n rest :
  0 <= n <= 9999 -> first_match (dir_Y (pad4 n rest)) (n, rest).
Proof.
  intros H. unfold dir_Y, pad4, pad2.
  eapply first_seq; [apply first_dig_any; dlia |].
  eapply first_seq; [apply first_dig_any; dlia |].
  eapply first_seq; [apply first_dig_any; dlia |].
  eapply first_seq; [apply first_dig_any; dlia |].
  exists []. unfold pure. f_equal. f_equal. dlia.
Qed.

Lemma first_lit c rest : first_match (lit c (String c rest)) (c, rest).
Proof. unfold lit, sat. rewrite Ascii.eqb_refl. eexists. reflexivity. Qed.

Lemma first_spaces n rest :
  0 <= n <= 99 ->
  first_match (spaces (String " " (pad2 n rest))) (tt, pad2 n rest).
Proof.
  intros H. cbn [spaces]. change (is_space " ") with true. cbv iota.
  unfold pad2 at 1. cbn [spaces].
  destruct (digit_char_spec (n / 10)) as (_ & _ & ->); [dlia |].
  eexists. reflexivity.
Qed.

(** X23.  Every calendar date and time of day, written in the form
    YYYY-MM-DD HH:MM:SS with its fields padded with zeros, is accepted by
    [strptime], which yields exactly those fields back. *)
Theorem strptime_iso_round_trip d :
  in_calendar d -> strptime (iso_text d) = Some d.
Proof.
  intros (Hy & Hm & Hd & Hh & Hmi & Hs).
  assert (Hdim : days_in_month (year d) (month d) <= 31).
  { unfold days_in_month.
    repeat match goal with |- context [if ?b then _ else _] => destruct b end; dlia. }
  assert (Hfirst : first_match (format_regex (iso_text d)) (d, "")).
  { unfold format_regex, iso_text.
    eapply first_seq; [apply first_dir_Y; dlia |].
    eapply first_seq; [apply first_lit |].
    eapply first_seq; [apply first_dir_m; dlia |].
    eapply first_seq; [apply first_lit |].
    eapply first_seq; [apply first_dir_d; dlia |].
    eapply first_seq; [apply first_spaces; dlia |].
    eapply first_seq; [apply first_dir_H; dlia |].
    eapply first_seq; [apply first_lit |].
    eapply first_seq; [apply first_dir_M; dlia |].
    eapply first_seq; [apply first_lit |].
    eapply first_seq; [apply first_dir_S; dlia |].
    exists []. destruct d. reflexivity. }
  destruct Hfirst as (tail & Hfirst). unfold strptime. rewrite Hfirst.
  replace (valid d) with true; [reflexivity |].
  symmetry. unfold valid. repeat (apply andb_true_iff; split); apply Z.leb_le; dlia.
Qed.

(** *** The body of a response *)

Lemma escape_plain c : plain_char c = true -> Json.escape_char c = str1 c.
Proof.
  unfold plain_char, Json.escape_char, in_range. intros H.
  apply andb_true_iff in H. destruct H as [H Hb].
  apply andb_true_iff in H. destruct H as [Hr Hq].
  apply negb_true_iff in Hb, Hq. rewrite Hq, Hb.
  unfold in_range. rewrite Hr.
  apply andb_true_iff in Hr. destruct Hr as [Hlo _]. apply N.leb_le in Hlo.
  repeat match goal with
         | |- context [N.eqb (code c) ?k] =>
             replace (N.eqb (code c) k) with false
               by (symmetry; apply N.eqb_neq; lia)
         end.
  reflexivity.
Qed.

Lemma map_concat_plain s :
  all_chars plain_char s = true -> map_concat Json.escape_char s = s.
Proof.
  induction s as [| c r IH]; [reflexivity |]. cbn [all_chars map_concat].
  intros H. apply andb_true_iff in H. destruct H as [Hc Hr].
  rewrite (escape_plain _ Hc), (IH Hr). reflexivity.
Qed.

Lemma replace_two c d r :
  replace_double_backslash (String c (String d r))
  = if Ascii.eqb c backslash && Ascii.eqb d backslash
    then String backslash (replace_double_backslash r)
    else String c (replace_double_backslash (String d r)).
Proof. reflexivity. Qed.

Lemma double_two c d r :
  has_double_backslash (String c (String d r))
  = (Ascii.eqb c backslash && Ascii.eqb d backslash)
    || has_double_backslash (String d r).
Proof. reflexivity. Qed.

Lemma replace_without_backslash s :
  mem_char backslash s = false -> replace_double_backslash s = s.
Proof.
  induction s as [| c r IH]; [reflexivity |]. cbn [mem_char].
  intros H. apply orb_false_iff in H. destruct H as [Hc Hr].
  destruct r as [| d r']; [reflexivity |].
  rewrite replace_two.
  rewrite Ascii.eqb_sym in Hc. rewrite Hc. cbn [andb].
  rewrite (IH Hr). reflexivity.
Qed.

Lemma mem_char_append c a b :
  mem_char c (a ++ b) = mem_char c a || mem_char c b.
Proof.
  induction a as [| d r IH]; [reflexivity |]. cbn [append mem_char].
  rewrite IH. apply orb_assoc.
Qed.

Lemma plain_has_no_backslash s :
  all_chars plain_char s = true -> mem_char backslash s = false.
Proof.
  induction s as [| c r IH]; [reflexivity |]. cbn [all_chars mem_char].
  intros H. apply andb_true_iff in H. destruct H as [Hc Hr].
  rewrite (IH Hr), orb_false_r.
  unfold plain_char in Hc. apply andb_true_iff in Hc. destruct Hc as [_ Hb].
  apply negb_true_iff in Hb. rewrite Ascii.eqb_sym. exact Hb.
Qed.

(** X24.  For a message made of printable ASCII characters other than the
    double quote and the backslash, [json_response] gives the status code as
    passed, the three CORS headers, and as body the message between double
    quotes. *)
Theorem plain_message_body_is_quoted message code :
  all_chars plain_char message = true ->
  json_response (PStr message) code
  = {| statusCode := code; headers := cors_headers; body := quoted message |}.
Proof.
  intros H. unfold json_response. f_equal.
  cbn [Json.dumps]. unfold Json.dumps_str. rewrite (map_concat_plain _ H).
  rewrite replace_without_backslash; [reflexivity |].
  rewrite mem_char_append. cbn [mem_char].
  rewrite (plain_has_no_backslash _ H). reflexivity.
Qed.

Lemma replace_length s :
  (String.length (replace_double_backslash s) <= String.length s)%nat
  /\ forall c,
      (String.length (replace_double_backslash (String c s))
       <= S (String.length s))%nat.
Proof.
  induction s as [| d r [IH1 IH2]].
  - split; [reflexivity |]. intros c. reflexivity.
  - split; [apply IH2 |]. intros c. rewrite replace_two.
    destruct (Ascii.eqb c backslash && Ascii.eqb d backslash);
      cbn [String.length]; [lia |].
    specialize (IH2 d). cbn [String.length] in *. lia.
Qed.

Lemma replace_shrinks s :
  has_double_backslash s = true ->
  (String.length (replace_double_backslash s) < String.length s)%nat.
Proof.
  induction s as [| c r IH]; [discriminate |].
  destruct r as [| d r']; [discriminate |].
  rewrite replace_two, double_two.
  destruct (Ascii.eqb c backslash && Ascii.eqb d backslash); cbn [orb].
  - intros _. cbn [String.length]. pose proof (proj1 (replace_length r')). lia.
  - intros H. specialize (IH H). cbn [String.length] in *. lia.
Qed.

Lemma has_double_backslash_cons c s :
  has_double_backslash s = true -> has_double_backslash (String c s) = true.
Proof.
  destruct s as [| d r]; [discriminate |]. intros H.
  rewrite double_two, H. apply orb_true_r.
Qed.

Lemma has_double_backslash_app_r a b :
  has_double_backslash b = true -> has_double_backslash (a ++ b) = true.
Proof.
  intros H. induction a as [| c r IH]; [exact H |].
  cbn [append]. apply has_double_backslash_cons. exact IH.
Qed.

Lemma has_double_backslash_app_l a b :
  has_double_backslash a = true -> has_double_backslash (a ++ b) = true.
Proof.
  induction a as [| c r IH]; [discriminate |].
  destruct r as [| d r']; [discriminate |].
  cbn [append]. cbn [append] in IH.
  rewrite !double_two.
  destruct (Ascii.eqb c backslash && Ascii.eqb d backslash); [reflexivity |].
  cbn [orb]. exact IH.
Qed.

Lemma escaped_backslash_doubles s :
  mem_char backslash s = true ->
  has_double_backslash (map_concat Json.escape_char s) = true.
Proof.
  induction s as [| c r IH]; [discriminate |]. cbn [mem_char map_concat].
  destruct (Ascii.eqb backslash c) eqn:E.
  - intros _. apply Ascii.eqb_eq in E. subst c.
    apply has_double_backslash_app_l. reflexivity.
  - cbn [orb]. intros H. apply has_double_backslash_app_r. exact (IH H).
Qed.

(** X25.  For a message that holds a backslash, the body [json_response]
    gives is not the JSON text of the message: [json.dumps] doubles the
    backslash and the replacement that follows halves it again, so the body
    is strictly shorter than the JSON text. *)
Theorem backslash_message_body_is_not_json message code :
  mem_char backslash message = true ->
  body (json_response (PStr message) code) <> Json.dumps (PStr message).
Proof.
  intros H Heq. cbn [json_response body] in Heq.
  assert (Hpair : has_double_backslash (Json.dumps (PStr message)) = true).
  { cbn [Json.dumps]. unfold Json.dumps_str.
    apply has_double_backslash_cons, has_double_backslash_app_l.
    exact (escaped_backslash_doubles _ H). }
  apply replace_shrinks in Hpair. rewrite Heq in Hpair. lia.
Qed.

(** *** Ids that are not texts *)

Lemma uint_chars u :
  all_chars name_char (NilEmpty.string_of_uint u) = true.
Proof. induction u; cbn [NilEmpty.string_of_uint all_chars]; rewrite ?IHu; reflexivity. Qed.

Lemma uint_text_valid u : validate_name (NilZero.string_of_uint u) = true.
Proof.
  unfold validate_name. destruct u; try reflexivity;
    cbn [NilZero.string_of_uint NilEmpty.string_of_uint all_chars String.eqb negb];
    rewrite uint_chars; reflexivity.
Qed.

Lemma of_Z_valid z : validate_name (of_Z z) = true.
Proof.
  unfold of_Z. destruct (Z.to_int z) as [u | u]; cbn [NilZero.string_of_int].
  - apply uint_text_valid.
  - pose proof (uint_text_valid u) as H. unfold validate_name in *.
    apply andb_true_iff in H. destruct H as [_ H].
    cbn [String.eqb negb all_chars andb]. rewrite H. reflexivity.
Qed.

(** X26.  An id given as null, as a boolean or as an integer is not
    treated as missing or malformed: the operations take its Python text
    (None, True, False, the decimal digits with their sign) as the name, and
    that text matches the name pattern. *)
Theorem scalar_id_accepted id :
  id = PNone \/ (exists b, id = PBool b) \/ (exists z, id = PInt z) ->
  validate_name (str id) = true.
Proof.
  intros [-> | [(b & ->) | (z & ->)]].
  - reflexivity.
  - destruct b; reflexivity.
  - apply of_Z_valid.
Qed.

(** X27.  An id given as a JSON list or object is never empty as a text
    and never matches the name pattern: its text starts with a bracket or a
    brace. *)
Theorem container_id_rejected id :
  (exists l, id = PList l) \/ (exists d, id = PDict d) ->
  str id <> "" /\ validate_name (str id) = false.
Proof.
  intros [(l & ->) | (d & ->)]; split; try discriminate; reflexivity.
Qed.

(** ** The further properties on the sample platforms *)

Ltac reached :=
  split; [reflexivity | split; [reflexivity | split; [reflexivity | resolved]]].

Lemma body_absent_or_not_text_400_witness :
  handler Sample.json_loads Sample.scheduler "dev"
    (PDict [("httpMethod", PStr "GET"); ("body", PNone)]) (Sample.start [])
  = (Ret (Some (json_response
                  (PStr "the JSON object must be str, bytes or bytearray, not NoneType")
                  400)),
     Sample.start []).
Proof.
  apply (body_absent_or_not_text_400 Sample.json_loads Sample.scheduler "dev"
           [("httpMethod", PStr "GET"); ("body", PNone)] (Some PNone)).
  - reflexivity.
  - discriminate.
Defined.

Lemma missing_action_400_witness :
  handler (Scenario.decoder Scenario.no_action) Sample.scheduler "dev"
    (Scenario.post Scenario.no_action) (Sample.start [])
  = (Ret (Some (json_response (PStr Msg.no_action) 400)), Sample.start []).
Proof.
  apply (missing_action_400 (Scenario.decoder Scenario.no_action)
           Sample.scheduler "dev" (Scenario.post Scenario.no_action)
           [("id", PStr "job-1")]).
  - reflexivity.
  - reflexivity.
  - reflexivity.
Defined.

Lemma false_action_400_witness :
  handler (Scenario.decoder Scenario.empty_action) Sample.scheduler "dev"
    (Scenario.post Scenario.empty_action) (Sample.start [])
  = (Ret (Some (json_response (PStr Msg.bad_action) 400)), Sample.start []).
Proof.
  apply (false_action_400 (Scenario.decoder Scenario.empty_action)
           Sample.scheduler "dev" (Scenario.post Scenario.empty_action)
           Scenario.empty_action (PStr "")).
  - reflexivity.
  - reflexivity.
  - reflexivity.
  - reflexivity.
Defined.

Lemma non_object_body_raises_witness :
  exists e,
    exn_cls e = TypeError
    /\ handler (Scenario.decoder Scenario.numbers) Sample.scheduler "dev"
         (Scenario.post Scenario.numbers) (Sample.start [])
       = (Raise e, Sample.start []).
Proof.
  apply (non_object_body_raises (Scenario.decoder Scenario.numbers)
           Sample.scheduler "dev" (Scenario.post Scenario.numbers)
           Scenario.numbers).
  - reflexivity.
  - reflexivity.
  - discriminate.
Defined.

Lemma missing_method_raises_witness :
  handler Sample.json_loads Sample.scheduler "dev"
    (PDict [("body", PStr (Sample.object_text Sample.create_job1))])
    (Sample.start [])
  = (Raise (key_error "httpMethod"), Sample.start []).
Proof.
  apply (missing_method_raises Sample.json_loads Sample.scheduler "dev"
           [("body", PStr (Sample.object_text Sample.create_job1))]
           (Sample.object_value Sample.create_job1)).
  - reflexivity.
  - reflexivity.
Defined.

Lemma lookup_answer_without_arn_raises_witness :
  handler Sample.json_loads (Sample.scripted Scenario.no_configuration) "dev"
    (Sample.post Sample.create_job1) (Sample.start tt)
  = (Raise (key_error "Configuration"), World tt [Scenario.lookup]).
Proof.
  apply (lookup_answer_without_arn_raises Sample.json_loads
           (Sample.scripted Scenario.no_configuration) "dev"
           (Sample.post Sample.create_job1)
           (Sample.object_value Sample.create_job1) (PStr "create")
           (PDict [("ResponseMetadata", PDict [])]) (key_error "Configuration")
           tt tt []).
  - reflexivity.
  - reflexivity.
  - reflexivity.
  - reflexivity.
  - reflexivity.
  - left. reflexivity.
Defined.

Lemma create_rule_applies_witness :
  handler (Scenario.decoder Scenario.create_nightly) Sample.scheduler "dev"
    (Scenario.post Scenario.create_nightly) (Sample.start [])
  = (Ret (Some (json_response
                  (PStr "New Rule created successfully: arn:aws:events:rule/nightly.backup_2")
                  200)),
     World
       [ Sample.Rule "nightly.backup_2" (PStr "cron(5 23 * * ? *)") (PStr "ENABLED")
           [ {| Arn := Scenario.executor; Id := "nightly.backup_2";
                Input := target_input "nightly.backup_2" |} ] ]
       [ Scenario.lookup;
         PutRule "nightly.backup_2" (PStr "cron(5 23 * * ? *)") (PStr "ENABLED");
         PutTargets "nightly.backup_2"
           [ {| Arn := Scenario.executor; Id := "nightly.backup_2";
                Input := target_input "nightly.backup_2" |} ] ]).
Proof.
  eapply (create_rule_applies (Scenario.decoder Scenario.create_nightly)
            Sample.scheduler "dev" (Scenario.post Scenario.create_nightly)
            Scenario.create_nightly (PStr "nightly.backup_2")
            (PStr "2031-12-31 23:05:59") (Strptime.Datetime 2031 12 31 23 5 59)
            (PDict [("RuleArn", PStr "arn:aws:events:rule/nightly.backup_2")])
            "arn:aws:events:rule/nightly.backup_2" Sample.no_failed_entries
            [] Scenario.executor [] _ _ []).
  - reached.
  - reflexivity.
  - reflexivity.
  - reflexivity.
  - reflexivity.
  - reflexivity.
  - reflexivity.
  - reflexivity.
  - reflexivity.
Defined.

Lemma create_put_rule_raises_no_target_witness :
  handler Sample.json_loads (Sample.scripted Scenario.put_rule_fails) "dev"
    (Sample.post Sample.create_job1) (Sample.start tt)
  = (Ret (Some (json_response
                  (PStr (exn_str (Scenario.client_error "PutRule"))) 400)),
     World tt [ Scenario.lookup;
                PutRule "job-1" (PStr "cron(30 9 * * ? *)") (PStr "ENABLED") ]).
Proof.
  apply (create_put_rule_raises_no_target Sample.json_loads
           (Sample.scripted Scenario.put_rule_fails) "dev"
           (Sample.post Sample.create_job1)
           (Sample.object_value Sample.create_job1) (PStr "job-1")
           (PStr "2030-01-01 09:30:00") (Strptime.Datetime 2030 1 1 9 30 0)
           (Scenario.client_error "PutRule") tt Scenario.executor tt tt []).
  - reached.
  - reflexivity.
  - reflexivity.
  - reflexivity.
  - reflexivity.
  - reflexivity.
  - reflexivity.
Defined.

Lemma create_put_targets_raises_rule_stays_witness :
  handler Sample.json_loads Scenario.scheduler_without_targets "dev"
    (Sample.post Sample.create_job1) (Sample.start [])
  = (Ret (Some (json_response
                  (PStr (exn_str (Scenario.client_error "PutTargets"))) 400)),
     World
       [ Sample.Rule "job-1" (PStr "cron(30 9 * * ? *)") (PStr "ENABLED") [] ]
       [ Scenario.lookup;
         PutRule "job-1" (PStr "cron(30 9 * * ? *)") (PStr "ENABLED");
         PutTargets "job-1"
           [ {| Arn := Scenario.executor; Id := "job-1";
                Input := target_input "job-1" |} ] ]).
Proof.
  eapply (create_put_targets_raises_rule_stays Sample.json_loads
            Scenario.scheduler_without_targets "dev"
            (Sample.post Sample.create_job1)
            (Sample.object_value Sample.create_job1) (PStr "job-1")
            (PStr "2030-01-01 09:30:00") (Strptime.Datetime 2030 1 1 9 30 0)
            (PDict [("RuleArn", PStr "arn:aws:events:rule/job-1")])
            (Scenario.client_error "PutTargets") [] Scenario.executor [] _ _ []).
  - reached.
  - reflexivity.
  - reflexivity.
  - reflexivity.
  - reflexivity.
  - reflexivity.
  - reflexivity.
  - reflexivity.
Defined.

Lemma update_non_text_state_raises_witness :
  handler (Scenario.decoder Scenario.update_state_one) Sample.scheduler "dev"
    (Scenario.post Scenario.update_state_one) (Sample.start Sample.one_rule)
  = (Raise (PyExn AttributeError "'int' object has no attribute 'upper'"),
     World Sample.one_rule [Scenario.lookup]).
Proof.
  apply (update_non_text_state_raises (Scenario.decoder Scenario.update_state_one)
           Sample.scheduler "dev" (Scenario.post Scenario.update_state_one)
           Scenario.update_state_one (PStr "job-1") (PStr "") (PInt 1)
           Sample.one_rule Scenario.executor Sample.one_rule []).
  - reached.
  - reflexivity.
  - reflexivity.
  - reflexivity.
  - reflexivity.
  - reflexivity.
  - discriminate.
Defined.

Lemma update_missing_rule_never_puts_witness :
  handler Sample.json_loads Sample.scheduler "dev"
    (Sample.post Sample.update_enabled) (Sample.start [])
  = (Ret (Some (json_response
                  (PStr (exn_str (Sample.not_found "DescribeRule" "job-1"))) 400)),
     World [] [Scenario.lookup; DescribeRule "job-1"]).
Proof.
  apply (update_missing_rule_never_puts Sample.json_loads Sample.scheduler "dev"
           (Sample.post Sample.update_enabled)
           (Sample.object_value Sample.update_enabled) (PStr "job-1") (PStr "")
           (PStr "enabled") (Sample.not_found "DescribeRule" "job-1")
           [] Scenario.executor [] [] []).
  - reached.
  - reflexivity.
  - reflexivity.
  - reflexivity.
  - reflexivity.
  - reflexivity.
  - reflexivity.
  - reflexivity.
Defined.

Lemma update_readable_date_replaces_schedule_witness :
  handler (Scenario.decoder Scenario.update_date) Sample.scheduler "dev"
    (Scenario.post Scenario.update_date) (Sample.start Sample.one_rule)
  = (Ret (Some (json_response
                  (PStr "Rule updated successfully: arn:aws:events:rule/job-1") 200)),
     World
       [ Sample.Rule "job-1" (PStr "cron(30 9 * * ? *)") (PStr "DISABLED")
           (Sample.rule_targets (hd (Sample.Rule "" PNone PNone []) Sample.one_rule)) ]
       [ Scenario.lookup; DescribeRule "job-1";
         PutRule "job-1" (PStr "cron(30 9 * * ? *)") (PStr "DISABLED") ]).
Proof.
  eapply (update_readable_date_replaces_schedule
            (Scenario.decoder Scenario.update_date) Sample.scheduler "dev"
            (Scenario.post Scenario.update_date) Scenario.update_date
            (PStr "job-1") (PStr "2030-01-01 09:30:00")
            (Strptime.Datetime 2030 1 1 9 30 0) (PStr "")
            (Sample.describe (hd (Sample.Rule "" PNone PNone []) Sample.one_rule))
            (PStr "DISABLED")
            (PDict [("RuleArn", PStr "arn:aws:events:rule/job-1")])
            "arn:aws:events:rule/job-1" Sample.one_rule Scenario.executor
            Sample.one_rule Sample.one_rule _ []).
  - reached.
  - reflexivity.
  - reflexivity.
  - reflexivity.
  - reflexivity.
  - reflexivity.
  - reflexivity.
  - reflexivity.
  - reflexivity.
  - reflexivity.
  - reflexivity.
  - reflexivity.
Defined.

Lemma delete_detaches_then_deletes_witness :
  handler Sample.json_loads Sample.scheduler "dev"
    (Sample.post Sample.delete_job1) (Sample.start Sample.one_rule)
  = (Ret (Some (json_response (PStr Msg.deleted) 200)),
     World [] [ Scenario.lookup; RemoveTargets "job-1" ["job-1"] true;
                DeleteRule "job-1" true ]).
Proof.
  eapply (delete_detaches_then_deletes Sample.json_loads Sample.scheduler "dev"
            (Sample.post Sample.delete_job1)
            (Sample.object_value Sample.delete_job1) (PStr "job-1")
            Sample.no_failed_entries
            (PDict [("ResponseMetadata", PDict [("HTTPStatusCode", PInt 200)])])
            Sample.one_rule Scenario.executor Sample.one_rule _ _ []).
  - reached.
  - reflexivity.
  - reflexivity.
  - reflexivity.
  - reflexivity.
  - reflexivity.
  - reflexivity.
Defined.

Lemma delete_false_answer_no_response_witness :
  handler Sample.json_loads (Sample.scripted Scenario.delete_answers_none) "dev"
    (Sample.post Sample.delete_job1) (Sample.start tt)
  = (Ret None,
     World tt [ Scenario.lookup; RemoveTargets "job-1" ["job-1"] true;
                DeleteRule "job-1" true ]).
Proof.
  apply (delete_false_answer_no_response Sample.json_loads
           (Sample.scripted Scenario.delete_answers_none) "dev"
           (Sample.post Sample.delete_job1)
           (Sample.object_value Sample.delete_job1) (PStr "job-1")
           Sample.no_failed_entries PNone tt Scenario.executor tt tt tt []).
  - reached.
  - reflexivity.
  - reflexivity.
  - reflexivity.
  - reflexivity.
  - reflexivity.
  - reflexivity.
Defined.

Lemma delete_raises_after_detach_witness :
  handler Sample.json_loads (Sample.scripted Scenario.delete_fails) "dev"
    (Sample.post Sample.delete_job1) (Sample.start tt)
  = (Ret (Some (json_response
                  (PStr (exn_str (Scenario.client_error "DeleteRule"))) 400)),
     World tt [ Scenario.lookup; RemoveTargets "job-1" ["job-1"] true;
                DeleteRule "job-1" true ]).
Proof.
  apply (delete_raises_after_detach Sample.json_loads
           (Sample.scripted Scenario.delete_fails) "dev"
           (Sample.post Sample.delete_job1)
           (Sample.object_value Sample.delete_job1) (PStr "job-1")
           Sample.no_failed_entries (Scenario.client_error "DeleteRule")
           tt Scenario.executor tt tt tt []).
  - reached.
  - reflexivity.
  - reflexivity.
  - reflexivity.
  - reflexivity.
  - reflexivity.
Defined.

Lemma handler_status_codes_witness :
  headers (json_response (PStr Msg.deleted) 200) = cors_headers
  /\ exists calls,
       [ Scenario.lookup; RemoveTargets "job-1" ["job-1"] true;
         DeleteRule "job-1" true ]
       = ([] ++ calls)%list
       /\ ((statusCode (json_response (PStr Msg.deleted) 200) = 405 /\ calls = [])
           \/ statusCode (json_response (PStr Msg.deleted) 200) = 400
           \/ (statusCode (json_response (PStr Msg.deleted) 200) = 200
               /\ (2 <= length calls)%nat)).
Proof.
  apply (handler_status_codes Sample.json_loads Sample.scheduler "dev"
           (Sample.post Sample.delete_job1) (Sample.start Sample.one_rule)
           (json_response (PStr Msg.deleted) 200)
           (World [] [ Scenario.lookup; RemoveTargets "job-1" ["job-1"] true;
                       DeleteRule "job-1" true ])).
  reflexivity.
Defined.

Lemma strptime_fields_in_calendar_witness :
  in_calendar (Strptime.Datetime 2030 1 1 9 30 0).
Proof.
  apply (strptime_fields_in_calendar "2030-01-01 09:30:00"). reflexivity.
Defined.

Lemma strptime_iso_round_trip_witness :
  strptime (iso_text (Strptime.Datetime 2028 2 29 23 59 59))
  = Some (Strptime.Datetime 2028 2 29 23 59 59).
Proof.
  apply strptime_iso_round_trip. unfold in_calendar.
  cbn [year month day hour minute second].
  change (days_in_month 2028 2) with 29. lia.
Defined.

Lemma plain_message_body_is_quoted_witness :
  json_response (PStr Msg.id_empty) 400
  = {| statusCode := 400; headers := cors_headers;
       body := quoted Msg.id_empty |}.
Proof. apply plain_message_body_is_quoted. reflexivity. Defined.

Lemma backslash_message_body_is_not_json_witness :
  body (json_response (PStr Msg.bad_name) 400) <> Json.dumps (PStr Msg.bad_name).
Proof. apply backslash_message_body_is_not_json. reflexivity. Defined.

Lemma scalar_id_accepted_witness : validate_name (str PNone) = true.
Proof. apply scalar_id_accepted. left. reflexivity. Defined.

Lemma container_id_rejected_witness :
  str (PList [PStr "job-1"]) <> ""
  /\ validate_name (str (PList [PStr "job-1"])) = false.
Proof.
  apply container_id_rejected. left. exists [PStr "job-1"]. reflexivity.
Defined.
